(** * The libcamera capture session of camera/camera_linux.cpp

    A shallow embedding of the seven entry points of the camera session
    ([open_camera], [start_camera], [close_camera], [queue_request],
    [num_buffers], [buffer_at], [frame_format]) and of the completion
    handler [requestComplete], together with the properties of the session
    that the design document states about them.

    The libcamera stack is an external collaborator.  Its answers are
    gathered in a record [Stack]; every call the session makes on it is
    logged as an [Event], so that statements about the order of calls are
    statements about the log. *)

From stdpp Require Import base numbers list relations.

Local Open Scope Z_scope.

(** ** Machine integers *)

(** [unsigned int] is 32 bits wide on the Linux targets of this file. *)
Definition UINT_MODULUS : Z := 2 ^ 32.

(** The value of an [unsigned int] expression: reduction modulo 2^32. *)
Definition wrap32 (z : Z) : Z := z `mod` UINT_MODULUS.

(** Conversion of an [unsigned int] value to [int]. *)
Definition int_of_uint (u : Z) : Z :=
  if decide (u < 2 ^ 31) then u else u - UINT_MODULUS.

(** [EINVAL] of <errno.h>. *)
Definition EINVAL : Z := 22.

(** ** The data of libcamera that the session touches *)

Record Size := { sz_width : Z; sz_height : Z }.

Record Rectangle := { r_x : Z; r_y : Z; r_width : Z; r_height : Z }.

Inductive PixelFormat :=
| YUV420
| SBGGR8
| FourCC (code : Z).

Inductive ColorSpace :=
| Raw
| OtherColorSpace (tag : Z).

Record StreamConfiguration := {
  sc_size : Size;
  sc_pixelFormat : PixelFormat;
  sc_stride : Z;
  sc_bufferCount : Z;
  sc_colorSpace : option ColorSpace;
}.

(** A [CameraConfiguration] is its vector of stream entries. *)
Abbreviation CameraConfiguration := (list StreamConfiguration) (only parsing).

Record Plane := { p_fd : Z; p_offset : Z; p_length : Z }.

Record FrameBuffer := { planes : list Plane }.

Inductive RequestStatus :=
| RequestPending
| RequestComplete
| RequestCancelled.

Record Request := {
  req_cookie : Z;
  req_status : RequestStatus;
  req_buffer : option FrameBuffer;
}.

(** A camera device: its identifier and its static properties. *)
Record Camera := {
  cam_id : Z;
  PixelArraySize : option Size;
}.

Record CameraManager := { cm_cameras : list Camera }.

(** The allocator, seen through [buffers(stream)] of the visible stream. *)
Record FrameBufferAllocator := { fba_buffers : list FrameBuffer }.

(** ** The two structs of camera_linux.h *)

Record buffer := { fd : Z; offset : Z; length : Z }.

Record format := { width : Z; height : Z; stride : Z }.

(** ** Decidable equality on the tags the code compares *)

#[global] Instance PixelFormat_eq_dec : EqDecision PixelFormat.
Proof. solve_decision. Defined.

#[global] Instance RequestStatus_eq_dec : EqDecision RequestStatus.
Proof. solve_decision. Defined.

(** ** The answers of the camera stack *)

Record Stack := {
  (** [CameraManager::start()] *)
  stk_manager_start : Z;
  (** [CameraManager::cameras()] *)
  stk_cameras : list Camera;
  (** [Camera::acquire()] *)
  stk_acquire : Z;
  (** [Camera::generateConfiguration(roles)], [None] for [nullptr] *)
  stk_generateConfiguration : option CameraConfiguration;
  (** [CameraConfiguration::validate()]: the adjusted configuration.  The
      status it returns is stored in [ret] and overwritten before any use. *)
  stk_validate : CameraConfiguration -> CameraConfiguration;
  (** [Camera::configure(config)] *)
  stk_configure : CameraConfiguration -> Z;
  (** [FrameBufferAllocator::allocate(stream)] *)
  stk_allocate : Z;
  (** [FrameBufferAllocator::buffers(stream)] after [allocate] *)
  stk_buffers : list FrameBuffer;
  (** [Camera::createRequest(cookie)]: [false] for a null request *)
  stk_createRequest : Z -> bool;
  (** [Request::addBuffer(stream, buffer)] on the request with that cookie *)
  stk_addBuffer : Z -> Z;
  (** [Camera::start(controls)] with the scaler crop held by [controls] *)
  stk_start : Rectangle -> Z;
  (** [Camera::queueRequest(request)] *)
  stk_queueRequest : Request -> Z;
}.

(** ** The log of calls *)

Inductive Event :=
| EvManagerStart (ret : Z)
| EvManagerStop
| EvAcquire (ret : Z)
| EvRelease
| EvGenerateConfiguration
| EvValidate
| EvConfigure (ret : Z)
| EvAllocate (ret : Z)
| EvFree
| EvCreateRequest (cookie : Z)
| EvAddBuffer (cookie : Z)
| EvConnect
| EvCameraStart (crop : Rectangle)
| EvCameraStop
| EvReuse (cookie : Z)
| EvQueueRequest (cookie : Z)
| EvRequestsClear
| EvCallback (handle cookie : Z).

(** ** The file-scope variables *)

Record Session := {
  cam_manager : option CameraManager;
  allocator : option FrameBufferAllocator;
  config : option CameraConfiguration;
  camera : option Camera;
  requests : list Request;
  callback_handle : Z;
}.

(** The state before any [open_camera]: null pointers, an empty vector. *)
Definition closed_session : Session :=
  {| cam_manager := None; allocator := None; config := None;
     camera := None; requests := []; callback_handle := 0 |}.

(** ** How a call ends *)

Inductive exception :=
| out_of_range          (* std::out_of_range, from vector::at *)
| bad_optional_access.  (* std::bad_optional_access, from optional::value *)

Inductive outcome (A : Type) :=
| Returns (a : A)
| Throws (e : exception)
| Aborts       (* abort() *)
| Undefined.   (* a null pointer or an index past the end is dereferenced *)

Arguments Returns {A} a.
Arguments Throws {A} e.
Arguments Aborts {A}.
Arguments Undefined {A}.

(** ** The monad of the entry points

    A computation reads and writes the file-scope variables and appends to
    the log; it ends in an [outcome]. *)

Definition M (A : Type) : Type := Session -> outcome A * Session * list Event.

Definition ret {A} (a : A) : M A := fun g => (Returns a, g, []).

Definition bind {A B} (m : M A) (f : A -> M B) : M B :=
  fun g =>
    match m g with
    | (Returns a, g1, t1) =>
        match f a g1 with
        | (o, g2, t2) => (o, g2, t1 ++ t2)
        end
    | (Throws e, g1, t1) => (Throws e, g1, t1)
    | (Aborts, g1, t1) => (Aborts, g1, t1)
    | (Undefined, g1, t1) => (Undefined, g1, t1)
    end.

#[global] Instance M_ret : MRet M := @ret.
#[global] Instance M_bind : MBind M := fun A B f m => bind m f.

Definition get_session : M Session := fun g => (Returns g, g, []).
Definition put_session (g' : Session) : M unit := fun _ => (Returns tt, g', []).
Definition emit (e : Event) : M unit := fun g => (Returns tt, g, [e]).
Definition throw {A} (e : exception) : M A := fun g => (Throws e, g, []).
Definition abort {A} : M A := fun g => (Aborts, g, []).
Definition undefined {A} : M A := fun g => (Undefined, g, []).

(** [p->...] on a smart pointer: null is undefined behaviour. *)
Definition deref {A} (p : option A) : M A :=
  match p with
  | Some a => ret a
  | None => undefined
  end.

(** [v[i]] and [CameraConfiguration::at(i)]: no bounds check. *)
Definition index {A} (v : list A) (i : nat) : M A :=
  match v !! i with
  | Some a => ret a
  | None => undefined
  end.

(** [std::vector::at(i)]: throws past the end. *)
Definition vector_at {A} (v : list A) (i : nat) : M A :=
  match v !! i with
  | Some a => ret a
  | None => throw out_of_range
  end.

(** [std::optional::value()]: throws when empty. *)
Definition optional_value {A} (o : option A) : M A :=
  match o with
  | Some a => ret a
  | None => throw bad_optional_access
  end.

(** ** requestComplete *)

Definition requestComplete (req : Request) : M unit :=
  if decide (req_status req = RequestCancelled) then ret tt
  else
    g ← get_session;
    let handle := callback_handle g in
    emit (EvCallback handle (req_cookie req)).

(** ** buffer_at *)

(** The loop over [buf->planes()]: [None] when [abort()] is reached. *)
Fixpoint check_planes (b : buffer) (ps : list Plane) : option buffer :=
  match ps with
  | [] => Some b
  | p :: ps' =>
      if decide (p_fd p ≠ fd b ∨ p_offset p ≠ wrap32 (offset b + length b))
      then None
      else check_planes
             {| fd := fd b; offset := offset b;
                length := wrap32 (length b + p_length p) |} ps'
  end.

Definition buffer_at (idx : nat) : M buffer :=
  g ← get_session;
  conf ← deref (config g);
  _ ← index conf 0;
  a ← deref (allocator g);
  buf ← index (fba_buffers a) idx;
  plane ← index (planes buf) 0;
  let b := {| fd := p_fd plane; offset := p_offset plane;
              length := p_offset plane |} in
  match check_planes b (planes buf) with
  | Some b' => ret b'
  | None => abort
  end.

(** ** num_buffers *)

Definition num_buffers : M nat :=
  g ← get_session;
  ret (List.length (requests g)).

(** ** Assignments to the file-scope variables *)

Definition set_requests (rs : list Request) (g : Session) : Session :=
  {| cam_manager := cam_manager g; allocator := allocator g;
     config := config g; camera := camera g; requests := rs;
     callback_handle := callback_handle g |}.

Definition set_allocator (a : option FrameBufferAllocator) (g : Session) : Session :=
  {| cam_manager := cam_manager g; allocator := a;
     config := config g; camera := camera g; requests := requests g;
     callback_handle := callback_handle g |}.

Definition set_camera (c : option Camera) (g : Session) : Session :=
  {| cam_manager := cam_manager g; allocator := allocator g;
     config := config g; camera := c; requests := requests g;
     callback_handle := callback_handle g |}.

Definition set_cam_manager (cm : option CameraManager) (g : Session) : Session :=
  {| cam_manager := cm; allocator := allocator g;
     config := config g; camera := camera g; requests := requests g;
     callback_handle := callback_handle g |}.

Definition modify_session (f : Session -> Session) : M unit :=
  fun g => (Returns tt, f g, []).

(** ** queue_request *)

(** [Request::reuse(ReuseBuffers)]: pending again, the buffer stays bound. *)
Definition reuse (req : Request) : Request :=
  {| req_cookie := req_cookie req; req_status := RequestPending;
     req_buffer := req_buffer req |}.

Definition queue_request (st : Stack) (buf_idx : nat) : M Z :=
  g ← get_session;
  req ← vector_at (requests g) buf_idx;
  emit (EvReuse (req_cookie req));;
  modify_session (set_requests (<[buf_idx := reuse req]> (requests g)));;
  _ ← deref (camera g);
  emit (EvQueueRequest (req_cookie req));;
  ret (stk_queueRequest st (reuse req)).

(** ** frame_format *)

Definition frame_format : M format :=
  g ← get_session;
  c ← deref (config g);
  conf ← index c 0;
  ret {| width := sz_width (sc_size conf);
         height := sz_height (sc_size conf);
         stride := sc_stride conf |}.

(** ** open_camera *)

(** Lines 97 to 101: the visible stream. *)
Definition set_visible (width height : Z) (sc : StreamConfiguration) : StreamConfiguration :=
  {| sc_size := {| sz_width := width; sz_height := height |};
     sc_pixelFormat := YUV420;
     sc_stride := sc_stride sc;
     sc_bufferCount := 1;
     sc_colorSpace := sc_colorSpace sc |}.

(** Lines 105 to 108: the raw stream that forces the sensor size. *)
Definition set_raw (sensor_size : Size) (sc : StreamConfiguration) : StreamConfiguration :=
  {| sc_size := sensor_size;
     sc_pixelFormat := SBGGR8;
     sc_stride := sc_stride sc;
     sc_bufferCount := 0;
     sc_colorSpace := Some Raw |}.

(** The three unwinding sequences of the error returns. *)
Definition unwind_manager : M unit := emit EvManagerStop.
Definition unwind_camera : M unit := emit EvRelease;; emit EvManagerStop.
Definition unwind_buffers : M unit :=
  emit EvFree;; emit EvRelease;; emit EvManagerStop.

(** The request a successful [createRequest(i)] and [addBuffer] leave in
    [reqs]. *)
Definition new_request (i : nat) (b : FrameBuffer) : Request :=
  {| req_cookie := Z.of_nat i; req_status := RequestPending;
     req_buffer := Some b |}.

(** The loop of lines 135 to 154 from index [i] on, over the buffers not yet
    visited.  [inl r] is a [return r] from inside the loop, [inr reqs] the
    vector at loop exit. *)
Fixpoint build_requests (st : Stack) (buffers : list FrameBuffer) (i : nat)
    (reqs : list Request) : M (Z + list Request) :=
  match buffers with
  | [] => ret (inr reqs)
  | b :: rest =>
      emit (EvCreateRequest (Z.of_nat i));;
      if stk_createRequest st (Z.of_nat i) then
        emit (EvAddBuffer (Z.of_nat i));;
        if decide (stk_addBuffer st (Z.of_nat i) < 0) then
          unwind_buffers;; ret (inl (- EINVAL))
        else build_requests st rest (S i) (reqs ++ [new_request i b])
      else
        unwind_buffers;; ret (inl (- EINVAL))
  end.

(** The assignments of lines 158 to 163 are one write of the file-scope
    variables.  When a variable already holds an object, the move-assignment
    destroys it; those destructors are not calls of this function and are
    not logged, so the log of a call on a session that is still open says
    nothing about what becomes of that session's objects. *)
Definition open_camera (st : Stack) (width height handle : Z) : M Z :=
  let cm := {| cm_cameras := stk_cameras st |} in
  emit (EvManagerStart (stk_manager_start st));;
  if decide (stk_manager_start st ≠ 0) then ret (stk_manager_start st)
  else
  match cm_cameras cm with
  | [] => unwind_manager;; ret (- EINVAL)
  | c :: _ =>
  emit (EvAcquire (stk_acquire st));;
  if decide (stk_acquire st ≠ 0) then unwind_manager;; ret (stk_acquire st)
  else
  emit EvGenerateConfiguration;;
  match stk_generateConfiguration st with
  | None => unwind_camera;; ret (- EINVAL)
  | Some conf =>
  streamConfig ← index conf 0;
  let conf := <[0%nat := set_visible width height streamConfig]> conf in
  rawConfig ← index conf 1;
  sensor_size ← optional_value (PixelArraySize c);
  let conf := <[1%nat := set_raw sensor_size rawConfig]> conf in
  emit EvValidate;;
  let conf := stk_validate st conf in
  visible ← index conf 0;
  if decide (sc_pixelFormat visible ≠ YUV420) then
    unwind_camera;; ret (- EINVAL)
  else
  emit EvValidate;;
  let conf := stk_validate st conf in
  emit (EvConfigure (stk_configure st conf));;
  if decide (stk_configure st conf ≠ 0) then
    unwind_camera;; ret (stk_configure st conf)
  else
  let a := {| fba_buffers := stk_buffers st |} in
  (* [streamConfig.stream()]: the entry 0 that [streamConfig] refers to *)
  _ ← index conf 0;
  emit (EvAllocate (stk_allocate st));;
  if decide (stk_allocate st < 0) then unwind_camera;; ret (- EINVAL)
  else
  built ← build_requests st (fba_buffers a) 0 [];
  match built with
  | inl status => ret status
  | inr reqs =>
  emit EvConnect;;
  put_session {| callback_handle := handle; cam_manager := Some cm;
                 camera := Some c; allocator := Some a;
                 config := Some conf; requests := reqs |};;
  ret 0
  end end end.

(** ** start_camera *)

(** The loop of lines 182 to 187 over the requests not yet visited. *)
Fixpoint queue_all (st : Stack) (reqs : list Request) : M Z :=
  match reqs with
  | [] => ret 0
  | req :: rest =>
      emit (EvQueueRequest (req_cookie req));;
      if decide (stk_queueRequest st req ≠ 0) then ret (stk_queueRequest st req)
      else queue_all st rest
  end.

(** Lines 171 to 175. *)
Definition scaler_crop (max_size : Size) (width height : Z) : Rectangle :=
  {| r_x := int_of_uint (wrap32 (sz_width max_size - width) `div` 2);
     r_y := int_of_uint (wrap32 (sz_height max_size - height) `div` 2);
     r_width := width;
     r_height := height |}.

Definition start_camera (st : Stack) (width height : Z) : M Z :=
  g ← get_session;
  let sz := {| sz_width := width; sz_height := height |} in
  c ← deref (camera g);
  let max_size := default sz (PixelArraySize c) in
  let crop := scaler_crop max_size width height in
  emit (EvCameraStart crop);;
  if decide (stk_start st crop ≠ 0) then ret (stk_start st crop)
  else queue_all st (requests g).

(** ** close_camera *)

Definition close_camera : M unit :=
  g ← get_session;
  _ ← deref (camera g);
  emit EvCameraStop;;
  emit EvRequestsClear;;
  modify_session (set_requests []);;
  conf ← deref (config g);
  _ ← index conf 0;
  _ ← deref (allocator g);
  emit EvFree;;
  modify_session (set_allocator None);;
  emit EvRelease;;
  modify_session (set_camera None);;
  _ ← deref (cam_manager g);
  emit EvManagerStop;;
  modify_session (set_cam_manager None).

(** * The vocabulary of the statements *)

(** ** Runs *)

(** A run of an entry point: how it ended, the file-scope variables it
    left, and the calls it logged. *)
Definition result {A} (r : outcome A * Session * list Event) : outcome A := r.1.1.
Definition final {A} (r : outcome A * Session * list Event) : Session := r.1.2.
Definition trace {A} (r : outcome A * Session * list Event) : list Event := r.2.

(** The run [r] with the event [e] logged before it. *)
Definition after {A} (e : Event) (r : outcome A * Session * list Event) :
    outcome A * Session * list Event :=
  (result r, final r, e :: trace r).

(** The run [r] with the events [t0] logged before it. *)
Definition after_all {A} (t0 : list Event) (r : outcome A * Session * list Event) :
    outcome A * Session * list Event :=
  (result r, final r, t0 ++ trace r).

(** ** The layout of a buffer *)

(** The layout the design document asks for, in its own words: every plane
    in the descriptor [d], each beginning where the previous one ends. *)
Fixpoint back_to_back (d : Z) (start : Z) (ps : list Plane) : Prop :=
  match ps with
  | [] => True
  | p :: ps' =>
      p_fd p = d /\ p_offset p = start /\
      back_to_back d (start + p_length p) ps'
  end.

Definition contiguous (buf : FrameBuffer) : Prop :=
  match planes buf with
  | [] => False
  | p :: _ => back_to_back (p_fd p) (p_offset p) (planes buf)
  end.

Definition total_length (ps : list Plane) : Z :=
  foldr (fun p acc => p_length p + acc) 0 ps.

(** The descriptor the design document promises for a contiguous buffer. *)
Definition spec_descriptor (buf : FrameBuffer) : option buffer :=
  match planes buf with
  | [] => None
  | p :: _ =>
      Some {| fd := p_fd p; offset := p_offset p;
              length := total_length (planes buf) |}
  end.

(** A plane whose end is still an [unsigned int]. *)
Definition plane_fits (p : Plane) : Prop :=
  0 <= p_offset p /\ 0 <= p_length p /\ p_offset p + p_length p < UINT_MODULUS.

(** A session whose allocator holds [bufs] for the visible stream. *)
Definition session_with_buffers (conf : CameraConfiguration)
    (bufs : list FrameBuffer) (g : Session) : Prop :=
  config g = Some conf /\ (exists sc, conf !! 0%nat = Some sc) /\
  allocator g = Some {| fba_buffers := bufs |}.

(** ** Resources in the log *)

(** Calls that take hold of a resource of the stack, and calls that give one
    back. *)
Inductive Resource := Manager | Device | Buffers.

Definition acquires (e : Event) : option Resource :=
  match e with
  | EvManagerStart r => if decide (r = 0) then Some Manager else None
  | EvAcquire r => if decide (r = 0) then Some Device else None
  | EvAllocate r => if decide (r < 0) then None else Some Buffers
  | _ => None
  end.

Definition releases (e : Event) : option Resource :=
  match e with
  | EvManagerStop => Some Manager
  | EvRelease => Some Device
  | EvFree => Some Buffers
  | _ => None
  end.

(** The resources a log takes, and the ones it gives back, in log order. *)
Definition acquired (t : list Event) : list Resource := omap acquires t.
Definition released (t : list Event) : list Resource := omap releases t.

(** The call that gives a resource back. *)
Definition release_call (r : Resource) : Event :=
  match r with
  | Manager => EvManagerStop
  | Device => EvRelease
  | Buffers => EvFree
  end.

(** ** The stages of [open_camera] *)

(** The requests the loop adds for [buffers], the first with cookie [i]. *)
Fixpoint pool_requests (i : nat) (buffers : list FrameBuffer) : list Request :=
  match buffers with
  | [] => []
  | b :: rest => new_request i b :: pool_requests (S i) rest
  end.

(** The file-scope variables as the last lines of [open_camera] set them. *)
Definition opened (st : Stack) (handle : Z) (c : Camera)
    (conf : CameraConfiguration) : Session :=
  {| callback_handle := handle;
     cam_manager := Some {| cm_cameras := stk_cameras st |};
     camera := Some c;
     allocator := Some {| fba_buffers := stk_buffers st |};
     config := Some conf;
     requests := pool_requests 0 (stk_buffers st) |}.

(** The manager started, [c] is the first device, and it was acquired. *)
Definition device_acquired (st : Stack) (c : Camera) : Prop :=
  stk_manager_start st = 0 /\ head (stk_cameras st) = Some c /\
  stk_acquire st = 0.

(** [conf] is the two-stream configuration handed to the first
    [validate()]. *)
Definition requested (st : Stack) (c : Camera) (width height : Z)
    (conf : CameraConfiguration) : Prop :=
  exists conf0 sc0 raw0 sensor,
    stk_generateConfiguration st = Some conf0 /\
    conf0 !! 0%nat = Some sc0 /\ conf0 !! 1%nat = Some raw0 /\
    PixelArraySize c = Some sensor /\
    conf = <[1%nat := set_raw sensor raw0]>
             (<[0%nat := set_visible width height sc0]> conf0).

(** [conf2] is the configuration the device accepted in [configure()]. *)
Definition configured (st : Stack) (c : Camera) (width height : Z)
    (conf2 : CameraConfiguration) : Prop :=
  device_acquired st c /\
  exists conf vis,
    requested st c width height conf /\
    stk_validate st conf !! 0%nat = Some vis /\
    sc_pixelFormat vis = YUV420 /\
    conf2 = stk_validate st (stk_validate st conf) /\
    stk_configure st conf2 = 0.

(** The log of a run that got through [configure()]. *)
Definition configured_log : list Event :=
  [EvManagerStart 0; EvAcquire 0; EvGenerateConfiguration; EvValidate;
   EvValidate; EvConfigure 0].

(** Requests 0 to [k - 1] were created and bound to their buffers. *)
Definition pool_built_until (st : Stack) (k : nat) : Prop :=
  forall j, (j < k)%nat ->
    stk_createRequest st (Z.of_nat j) = true /\
    ~ stk_addBuffer st (Z.of_nat j) < 0.

Inductive Stage :=
| AtManagerStart
| AtDeviceList
| AtAcquire
| AtGenerateConfiguration
| AtPixelFormat
| AtConfigure
| AtAllocate
| AtCreateRequest
| AtAddBuffer.

(** The stack makes [open_camera(width, height, _)] fail at a stage: every
    earlier stage went through and this one did not. *)
Inductive open_fails (st : Stack) (width height : Z) : Stage -> Prop :=
| fails_manager_start :
    stk_manager_start st <> 0 ->
    open_fails st width height AtManagerStart
| fails_device_list :
    stk_manager_start st = 0 -> stk_cameras st = [] ->
    open_fails st width height AtDeviceList
| fails_acquire c :
    stk_manager_start st = 0 -> head (stk_cameras st) = Some c ->
    stk_acquire st <> 0 ->
    open_fails st width height AtAcquire
| fails_generate c :
    device_acquired st c -> stk_generateConfiguration st = None ->
    open_fails st width height AtGenerateConfiguration
| fails_format c conf vis :
    device_acquired st c -> requested st c width height conf ->
    stk_validate st conf !! 0%nat = Some vis ->
    sc_pixelFormat vis <> YUV420 ->
    open_fails st width height AtPixelFormat
| fails_configure c conf vis :
    device_acquired st c -> requested st c width height conf ->
    stk_validate st conf !! 0%nat = Some vis ->
    sc_pixelFormat vis = YUV420 ->
    stk_configure st (stk_validate st (stk_validate st conf)) <> 0 ->
    open_fails st width height AtConfigure
| fails_allocate c conf2 vis2 :
    configured st c width height conf2 -> conf2 !! 0%nat = Some vis2 ->
    stk_allocate st < 0 ->
    open_fails st width height AtAllocate
| fails_create c conf2 vis2 k :
    configured st c width height conf2 -> conf2 !! 0%nat = Some vis2 ->
    0 <= stk_allocate st ->
    (k < List.length (stk_buffers st))%nat -> pool_built_until st k ->
    stk_createRequest st (Z.of_nat k) = false ->
    open_fails st width height AtCreateRequest
| fails_bind c conf2 vis2 k :
    configured st c width height conf2 -> conf2 !! 0%nat = Some vis2 ->
    0 <= stk_allocate st ->
    (k < List.length (stk_buffers st))%nat -> pool_built_until st k ->
    stk_createRequest st (Z.of_nat k) = true ->
    stk_addBuffer st (Z.of_nat k) < 0 ->
    open_fails st width height AtAddBuffer.

(** The resources taken before a stage, in the order they were taken. *)
Definition held_before (s : Stage) : list Resource :=
  match s with
  | AtManagerStart => []
  | AtDeviceList | AtAcquire => [Manager]
  | AtGenerateConfiguration | AtPixelFormat | AtConfigure | AtAllocate =>
      [Manager; Device]
  | AtCreateRequest | AtAddBuffer => [Manager; Device; Buffers]
  end.

(** ** States of the session *)

(** Open: every pointer [close_camera] goes through is set, and the
    configuration has its visible stream. *)
Definition session_open (g : Session) : Prop :=
  exists cm c a conf sc,
    cam_manager g = Some cm /\ camera g = Some c /\ allocator g = Some a /\
    config g = Some conf /\ conf !! 0%nat = Some sc.

(** Released: what [close_camera] leaves. *)
Definition session_released (g : Session) : Prop :=
  cam_manager g = None /\ camera g = None /\ allocator g = None /\
  requests g = [].

(** One request per allocated buffer. *)
Definition pool_consistent (g : Session) : Prop :=
  forall a, allocator g = Some a ->
    List.length (fba_buffers a) = List.length (requests g).

Definition session_inv (g : Session) : Prop :=
  (session_open g /\ pool_consistent g) \/ session_released g.

(** The file-scope variables after [close_camera]: [config] and
    [callback_handle] keep their values. *)
Definition closed_from (g : Session) : Session :=
  {| cam_manager := None; allocator := None; config := config g;
     camera := None; requests := []; callback_handle := callback_handle g |}.

(** From the initial state, through calls that return. *)
Inductive reachable : Session -> Prop :=
| reach_initial : reachable closed_session
| reach_open st w h hd g r g' t :
    reachable g -> open_camera st w h hd g = (Returns r, g', t) ->
    reachable g'
| reach_start st w h g r g' t :
    reachable g -> start_camera st w h g = (Returns r, g', t) ->
    reachable g'
| reach_queue st i g r g' t :
    reachable g -> queue_request st i g = (Returns r, g', t) ->
    reachable g'
| reach_close g g' t :
    reachable g -> close_camera g = (Returns tt, g', t) ->
    reachable g'.

(** One later call of [start_camera] or [queue_request], whatever the stack
    answers and however the call ends. *)
Inductive session_call (g g' : Session) : Prop :=
| call_start st w h : final (start_camera st w h g) = g' -> session_call g g'
| call_queue st i : final (queue_request st i g) = g' -> session_call g g'.

(** ** Crop and geometry *)

(** The crop of the design document: (width, height) centred in the
    sensor. *)
Definition centered_crop (sensor : Size) (width height : Z) : Rectangle :=
  {| r_x := (sz_width sensor - width) `div` 2;
     r_y := (sz_height sensor - height) `div` 2;
     r_width := width; r_height := height |}.

(** The call that submits [req]. *)
Definition submission (req : Request) : Event := EvQueueRequest (req_cookie req).

(** The struct [frame_format] builds from a stream entry. *)
Definition geometry (sc : StreamConfiguration) : format :=
  {| width := sz_width (sc_size sc); height := sz_height (sc_size sc);
     stride := sc_stride sc |}.

(** The device hands back the size of the visible stream it was given. *)
Definition keeps_visible_size (st : Stack) : Prop :=
  forall conf : CameraConfiguration,
    sc_size <$> (stk_validate st conf !! 0%nat) = sc_size <$> (conf !! 0%nat).

(** ** Sample stacks and sessions *)

(** A buffer of two planes laid out back-to-back in descriptor 3, from
    offset 4096 on. *)
Definition shifted_buffer : FrameBuffer :=
  {| planes := [ {| p_fd := 3; p_offset := 4096; p_length := 100 |};
                 {| p_fd := 3; p_offset := 4196; p_length := 50 |} ] |}.

Definition plain_stream : StreamConfiguration :=
  {| sc_size := {| sz_width := 640; sz_height := 480 |};
     sc_pixelFormat := YUV420; sc_stride := 640; sc_bufferCount := 1;
     sc_colorSpace := None |}.

Definition shifted_session : Session :=
  {| cam_manager := Some {| cm_cameras := [] |};
     allocator := Some {| fba_buffers := [shifted_buffer] |};
     config := Some [plain_stream; plain_stream];
     camera := Some {| cam_id := 0; PixelArraySize := None |};
     requests := [new_request 0 shifted_buffer];
     callback_handle := 0 |}.

Definition demo_camera : Camera :=
  {| cam_id := 0;
     PixelArraySize := Some {| sz_width := 3280; sz_height := 2464 |} |}.

(** Three planes of one descriptor, back-to-back from offset 0. *)
Definition demo_buffer : FrameBuffer :=
  {| planes := [ {| p_fd := 5; p_offset := 0; p_length := 307200 |};
                 {| p_fd := 5; p_offset := 307200; p_length := 76800 |};
                 {| p_fd := 5; p_offset := 384000; p_length := 76800 |} ] |}.

Definition generated_stream : StreamConfiguration :=
  {| sc_size := {| sz_width := 1920; sz_height := 1080 |};
     sc_pixelFormat := FourCC 875713112; sc_stride := 0; sc_bufferCount := 4;
     sc_colorSpace := None |}.

(** A validation that keeps sizes and formats and fills in the stride. *)
Definition fill_stride (sc : StreamConfiguration) : StreamConfiguration :=
  {| sc_size := sc_size sc; sc_pixelFormat := sc_pixelFormat sc;
     sc_stride := sz_width (sc_size sc); sc_bufferCount := sc_bufferCount sc;
     sc_colorSpace := sc_colorSpace sc |}.

(** A stack on which every call succeeds, with a pool of two buffers. *)
Definition demo_stack : Stack :=
  {| stk_manager_start := 0;
     stk_cameras := [demo_camera];
     stk_acquire := 0;
     stk_generateConfiguration := Some [generated_stream; generated_stream];
     stk_validate := fmap fill_stride;
     stk_configure := fun _ => 0;
     stk_allocate := 2;
     stk_buffers := [demo_buffer; demo_buffer];
     stk_createRequest := fun _ => true;
     stk_addBuffer := fun _ => 0;
     stk_start := fun _ => 0;
     stk_queueRequest := fun _ => 0 |}.

(** [st] with other answers to [Camera::start] and [Camera::queueRequest]. *)
Definition with_start (f : Rectangle -> Z) (st : Stack) : Stack :=
  {| stk_manager_start := stk_manager_start st;
     stk_cameras := stk_cameras st;
     stk_acquire := stk_acquire st;
     stk_generateConfiguration := stk_generateConfiguration st;
     stk_validate := stk_validate st;
     stk_configure := stk_configure st;
     stk_allocate := stk_allocate st;
     stk_buffers := stk_buffers st;
     stk_createRequest := stk_createRequest st;
     stk_addBuffer := stk_addBuffer st;
     stk_start := f;
     stk_queueRequest := stk_queueRequest st |}.

Definition with_queueRequest (f : Request -> Z) (st : Stack) : Stack :=
  {| stk_manager_start := stk_manager_start st;
     stk_cameras := stk_cameras st;
     stk_acquire := stk_acquire st;
     stk_generateConfiguration := stk_generateConfiguration st;
     stk_validate := stk_validate st;
     stk_configure := stk_configure st;
     stk_allocate := stk_allocate st;
     stk_buffers := stk_buffers st;
     stk_createRequest := stk_createRequest st;
     stk_addBuffer := stk_addBuffer st;
     stk_start := stk_start st;
     stk_queueRequest := f |}.

(** [st] with other answers to [Request::addBuffer]. *)
Definition with_addBuffer (f : Z -> Z) (st : Stack) : Stack :=
  {| stk_manager_start := stk_manager_start st;
     stk_cameras := stk_cameras st;
     stk_acquire := stk_acquire st;
     stk_generateConfiguration := stk_generateConfiguration st;
     stk_validate := stk_validate st;
     stk_configure := stk_configure st;
     stk_allocate := stk_allocate st;
     stk_buffers := stk_buffers st;
     stk_createRequest := stk_createRequest st;
     stk_addBuffer := f;
     stk_start := stk_start st;
     stk_queueRequest := stk_queueRequest st |}.

(** [st] with another validation. *)
Definition with_validate (f : CameraConfiguration -> CameraConfiguration)
    (st : Stack) : Stack :=
  {| stk_manager_start := stk_manager_start st;
     stk_cameras := stk_cameras st;
     stk_acquire := stk_acquire st;
     stk_generateConfiguration := stk_generateConfiguration st;
     stk_validate := f;
     stk_configure := stk_configure st;
     stk_allocate := stk_allocate st;
     stk_buffers := stk_buffers st;
     stk_createRequest := stk_createRequest st;
     stk_addBuffer := stk_addBuffer st;
     stk_start := stk_start st;
     stk_queueRequest := stk_queueRequest st |}.

(** [st] with other devices. *)
Definition with_cameras (cams : list Camera) (st : Stack) : Stack :=
  {| stk_manager_start := stk_manager_start st;
     stk_cameras := cams;
     stk_acquire := stk_acquire st;
     stk_generateConfiguration := stk_generateConfiguration st;
     stk_validate := stk_validate st;
     stk_configure := stk_configure st;
     stk_allocate := stk_allocate st;
     stk_buffers := stk_buffers st;
     stk_createRequest := stk_createRequest st;
     stk_addBuffer := stk_addBuffer st;
     stk_start := stk_start st;
     stk_queueRequest := stk_queueRequest st |}.

(** The session [open_camera(640, 480, 7)] leaves on [demo_stack]. *)
Definition demo_session : Session :=
  final (open_camera demo_stack 640 480 7 closed_session).

Definition demo_crop : Rectangle :=
  {| r_x := 1320; r_y := 992; r_width := 640; r_height := 480 |}.

(** The device refuses to start. *)
Definition refusing_start : Stack := with_start (fun _ => -5) demo_stack.

(** The device refuses the request with cookie 0. *)
Definition refusing_first : Stack :=
  with_queueRequest (fun r => if decide (req_cookie r = 0) then -16 else 0)
    demo_stack.

(** The request with cookie 1 cannot take its buffer. *)
Definition refusing_second_buffer : Stack :=
  with_addBuffer (fun cookie => if decide (cookie = 1) then -12 else 0)
    demo_stack.

(** The configuration [demo_stack] is asked to validate, and the one it
    accepts. *)
Definition demo_requested : CameraConfiguration :=
  [set_visible 640 480 generated_stream;
   set_raw {| sz_width := 3280; sz_height := 2464 |} generated_stream].

Definition demo_configured : CameraConfiguration :=
  fill_stride <$> (fill_stride <$> demo_requested).

(** A validation that turns every stream into NV12. *)
Definition to_nv12 (sc : StreamConfiguration) : StreamConfiguration :=
  {| sc_size := sc_size sc; sc_pixelFormat := FourCC 842094158;
     sc_stride := sz_width (sc_size sc); sc_bufferCount := sc_bufferCount sc;
     sc_colorSpace := sc_colorSpace sc |}.

Definition substituting_format : Stack := with_validate (fmap to_nv12) demo_stack.

(** A device that does not expose its pixel-array size. *)
Definition bare_camera : Camera := {| cam_id := 0; PixelArraySize := None |}.

Definition bare_stack : Stack := with_cameras [bare_camera] demo_stack.

(** ** The successful run of [open_camera] *)

(** The calls of the loop of lines 135 to 154 when nothing is refused:
    [n] requests from cookie [i] on, each created and then bound. *)
Fixpoint pool_log (i n : nat) : list Event :=
  match n with
  | O => []
  | S n' =>
      EvCreateRequest (Z.of_nat i) :: EvAddBuffer (Z.of_nat i) ::
      pool_log (S i) n'
  end.

(** The whole log of an [open_camera] that returns 0. *)
Definition success_log (st : Stack) : list Event :=
  configured_log ++
  EvAllocate (stk_allocate st) ::
  pool_log 0 (List.length (stk_buffers st)) ++ [EvConnect].

(** Lines 155 to 164, and the propagation of a [return] from the loop. *)
Definition finish_open (st : Stack) (handle : Z) (c : Camera)
    (cams : list Camera) (conf : CameraConfiguration)
    (built : Z + list Request) : M Z :=
  match built with
  | inl status => ret status
  | inr reqs =>
      emit EvConnect;;
      put_session {| callback_handle := handle;
                     cam_manager := Some {| cm_cameras := c :: cams |};
                     camera := Some c;
                     allocator := Some {| fba_buffers := stk_buffers st |};
                     config := Some conf; requests := reqs |};;
      ret 0
  end.

(** Cookie and buffer of every pooled request are those of its index. *)
Definition pool_indexed (g : Session) : Prop :=
  forall i r, requests g !! i = Some r ->
    req_cookie r = Z.of_nat i /\
    exists a b, allocator g = Some a /\ fba_buffers a !! i = Some b /\
                req_buffer r = Some b.

(** Two planes of one descriptor with a gap of 28 bytes between them. *)
Definition gapped_buffer : FrameBuffer :=
  {| planes := [ {| p_fd := 5; p_offset := 0; p_length := 100 |};
                 {| p_fd := 5; p_offset := 128; p_length := 50 |} ] |}.

Definition gapped_session : Session :=
  {| cam_manager := Some {| cm_cameras := [] |};
     allocator := Some {| fba_buffers := [gapped_buffer] |};
     config := Some [plain_stream; plain_stream];
     camera := Some {| cam_id := 0; PixelArraySize := None |};
     requests := [new_request 0 gapped_buffer];
     callback_handle := 0 |}.

(** A validation that fills in the stride of a configuration it sees for
    the first time, and turns every stream into NV12 when it is handed a
    configuration whose stride it has already filled in. *)
Definition late_nv12 (conf : CameraConfiguration) : CameraConfiguration :=
  match conf with
  | [] => []
  | sc :: _ =>
      if decide (sc_stride sc = 0) then fill_stride <$> conf
      else to_nv12 <$> conf
  end.

Definition late_substituting : Stack := with_validate late_nv12 demo_stack.

(** [demo_session] after the device has completed the request of buffer 0. *)
Definition completed_request : Request :=
  {| req_cookie := 0; req_status := RequestComplete;
     req_buffer := Some demo_buffer |}.

Definition completed_session : Session :=
  set_requests [completed_request; new_request 1 demo_buffer] demo_session.

(** * Properties *)

(** ** Running a computation *)

Lemma after_triple {A} e (o : outcome A) g t : after e (o, g, t) = (o, g, e :: t).
Proof. reflexivity. Qed.

Lemma bind_ret {A B} (a : A) (f : A -> M B) g : (ret a ≫= f) g = f a g.
Proof.
  unfold mbind, M_bind, bind, ret.
  destruct (f a g) as [[o g2] t2]. reflexivity.
Qed.

Lemma bind_get {B} (k : Session -> M B) g : (get_session ≫= k) g = k g g.
Proof.
  unfold mbind, M_bind, bind, get_session.
  destruct (k g g) as [[o g2] t2]. reflexivity.
Qed.

Lemma bind_modify {B} (f : Session -> Session) (k : M B) g :
  (modify_session f;; k) g = k (f g).
Proof.
  unfold mbind, M_bind, bind, modify_session.
  destruct (k (f g)) as [[o g2] t2]. reflexivity.
Qed.

Lemma bind_put {B} (g' : Session) (k : M B) g : (put_session g';; k) g = k g'.
Proof.
  unfold mbind, M_bind, bind, put_session.
  destruct (k g') as [[o g2] t2]. reflexivity.
Qed.

Lemma bind_emit {B} (e : Event) (k : M B) g : (emit e;; k) g = after e (k g).
Proof.
  unfold mbind, M_bind, bind, emit, after, result, final, trace.
  destruct (k g) as [[o g2] t2]. reflexivity.
Qed.

Lemma bind_undefined {A B} (f : A -> M B) g :
  (undefined ≫= f) g = (Undefined, g, []).
Proof. reflexivity. Qed.

Lemma bind_throw {A B} (e : exception) (f : A -> M B) g :
  (throw e ≫= f) g = (Throws e, g, []).
Proof. reflexivity. Qed.

Lemma bind_abort {A B} (f : A -> M B) g : (abort ≫= f) g = (Aborts, g, []).
Proof. reflexivity. Qed.

Lemma ret_run {A} (a : A) g : ret a g = (Returns a, g, []).
Proof. reflexivity. Qed.

Lemma emit_run e g : emit e g = (Returns tt, g, [e]).
Proof. reflexivity. Qed.

Create Rewrite HintDb run.
#[global] Hint Rewrite @bind_ret @bind_get @bind_modify @bind_put @bind_emit
  @bind_undefined @bind_throw @bind_abort @ret_run @after_triple emit_run : run.

(** Evaluate the monadic steps at the head of the goal. *)
Ltac run := repeat (autorewrite with run; cbn [deref index vector_at optional_value]).

(** ** The Buffer Descriptor Extractor *)

Lemma buffer_at_unfold conf bufs g idx buf plane :
  session_with_buffers conf bufs g ->
  bufs !! idx = Some buf ->
  planes buf !! 0%nat = Some plane ->
  buffer_at idx g =
    match check_planes {| fd := p_fd plane; offset := p_offset plane;
                          length := p_offset plane |} (planes buf) with
    | Some b => (Returns b, g, [])
    | None => (Aborts, g, [])
    end.
Proof.
  intros (Hc & [sc Hsc] & Ha) Hb Hp.
  unfold buffer_at. run. rewrite Hc. run.
  unfold index. rewrite Hsc. run. rewrite Ha. run.
  simpl. rewrite Hb. run. rewrite Hp. run.
  destruct (check_planes _ _); reflexivity.
Qed.

Lemma wrap32_small z : 0 <= z < UINT_MODULUS -> wrap32 z = z.
Proof. intros H. unfold wrap32. apply Z.mod_small. exact H. Qed.

Lemma wrap32_range z : 0 <= wrap32 z < UINT_MODULUS.
Proof. unfold wrap32, UINT_MODULUS. apply Z.mod_pos_bound. lia. Qed.

(** The loop keeps [fd] and [offset] of the descriptor it was given. *)
Lemma check_planes_base ps : forall b b',
  check_planes b ps = Some b' -> fd b' = fd b /\ offset b' = offset b.
Proof.
  induction ps as [|p ps IH]; intros b b' H; simpl in H.
  - injection H as <-. split; reflexivity.
  - case_decide; [discriminate|]. apply IH in H. simpl in H. exact H.
Qed.

(** From a descriptor based at offset 0 the loop accepts exactly the
    back-to-back layouts, and sums their lengths. *)
Lemma check_planes_zero_based ps : forall b,
  offset b = 0 -> 0 <= length b < UINT_MODULUS -> Forall plane_fits ps ->
  (back_to_back (fd b) (length b) ps ->
   check_planes b ps =
     Some {| fd := fd b; offset := 0; length := length b + total_length ps |}) /\
  (~ back_to_back (fd b) (length b) ps -> check_planes b ps = None).
Proof.
  induction ps as [|p ps IH]; intros b Hoff Hlen Hfit.
  - split; [intros _ | intros H; destruct H; exact I].
    simpl. destruct b as [f o l]; simpl in *. subst o.
    rewrite Z.add_0_r. reflexivity.
  - apply Forall_cons in Hfit as [(Hp0 & Hp1 & Hp2) Hfit].
    simpl. rewrite Hoff, Z.add_0_l, (wrap32_small (length b)) by exact Hlen.
    case_decide as Hd.
    + split; [|reflexivity]. intros (Hf & Ho & _). destruct Hd; congruence.
    + assert (Hf : p_fd p = fd b).
      { destruct (decide (p_fd p = fd b)) as [E|E]; [exact E|].
        exfalso. apply Hd. left. exact E. }
      assert (Ho : p_offset p = length b).
      { destruct (decide (p_offset p = length b)) as [E|E]; [exact E|].
        exfalso. apply Hd. right. exact E. }
      assert (Hsum : wrap32 (length b + p_length p) = length b + p_length p).
      { apply wrap32_small. lia. }
      rewrite Hsum.
      specialize (IH {| fd := fd b; offset := 0; length := length b + p_length p |}).
      simpl in IH. destruct IH as [IHy IHn]; [reflexivity | lia | exact Hfit |].
      split.
      * intros (_ & _ & Hrest). rewrite IHy by exact Hrest.
        rewrite Z.add_assoc. reflexivity.
      * intros Hnot. apply IHn. intros Hrest. apply Hnot.
        simpl. auto.
Qed.

(** Zero-based contiguous buffers get the promised descriptor. *)
Lemma buffer_at_zero_based conf bufs g idx buf d :
  session_with_buffers conf bufs g ->
  bufs !! idx = Some buf ->
  Forall plane_fits (planes buf) ->
  contiguous buf ->
  spec_descriptor buf = Some d ->
  offset d = 0 ->
  buffer_at idx g = (Returns d, g, []).
Proof.
  intros Hs Hb Hfit Hc Hd Hz. unfold contiguous, spec_descriptor in *.
  destruct (planes buf) as [|p ps] eqn:Hps; [destruct Hc|].
  injection Hd as <-. simpl in Hz.
  rewrite (buffer_at_unfold conf bufs g idx buf p Hs Hb) by (rewrite Hps; reflexivity).
  rewrite Hps.
  assert (Hlen : 0 <= p_offset p < UINT_MODULUS).
  { rewrite Hz. unfold UINT_MODULUS. lia. }
  destruct (check_planes_zero_based (p :: ps)
              {| fd := p_fd p; offset := p_offset p; length := p_offset p |}
              Hz Hlen Hfit) as [Hy _].
  rewrite Hy; [| cbn [fd length]; rewrite Hz in *; exact Hc].
  cbn [fd length]. rewrite Hz. reflexivity.
Qed.

(** Zero-based buffers that are not back-to-back in one descriptor abort. *)
Lemma buffer_at_not_contiguous conf bufs g idx buf p :
  session_with_buffers conf bufs g ->
  bufs !! idx = Some buf ->
  planes buf !! 0%nat = Some p ->
  Forall plane_fits (planes buf) ->
  p_offset p = 0 ->
  ~ contiguous buf ->
  buffer_at idx g = (Aborts, g, []).
Proof.
  intros Hs Hb Hp Hfit Hz Hc. unfold contiguous in Hc.
  rewrite (buffer_at_unfold conf bufs g idx buf p Hs Hb Hp).
  destruct (planes buf) as [|p' ps] eqn:Hps; [discriminate|].
  injection Hp as ->.
  assert (Hlen : 0 <= p_offset p < UINT_MODULUS).
  { rewrite Hz. unfold UINT_MODULUS. lia. }
  destruct (check_planes_zero_based (p :: ps)
              {| fd := p_fd p; offset := p_offset p; length := p_offset p |}
              Hz Hlen Hfit) as [_ Hn].
  rewrite Hn; [reflexivity|]. cbn [fd length]. rewrite Hz in *. exact Hc.
Qed.

(** Whatever its layout, a buffer whose first plane starts at a nonzero offset
    aborts: the accumulated length starts at that offset instead of zero, so
    the first plane is compared with twice its own offset. *)
Lemma buffer_at_nonzero_base conf bufs g idx buf p :
  session_with_buffers conf bufs g ->
  bufs !! idx = Some buf ->
  planes buf !! 0%nat = Some p ->
  0 < p_offset p < UINT_MODULUS ->
  buffer_at idx g = (Aborts, g, []).
Proof.
  intros Hs Hb Hp Hr.
  rewrite (buffer_at_unfold conf bufs g idx buf p Hs Hb Hp).
  destruct (planes buf) as [|p' ps] eqn:Hps; [discriminate|].
  injection Hp as ->. simpl.
  case_decide as Hd; [reflexivity|]. exfalso. apply Hd. right.
  unfold wrap32, UINT_MODULUS in *. intros Heq.
  assert (H2 : (p_offset p + p_offset p) `mod` 2 ^ 32 =
               p_offset p + p_offset p - 2 ^ 32 \/
               (p_offset p + p_offset p) `mod` 2 ^ 32 = p_offset p + p_offset p).
  { destruct (decide (p_offset p + p_offset p < 2 ^ 32)).
    - right. apply Z.mod_small. lia.
    - left. rewrite <- (Z.mod_small (p_offset p + p_offset p - 2 ^ 32) (2 ^ 32)) by lia.
      replace (p_offset p + p_offset p) with
        (p_offset p + p_offset p - 2 ^ 32 + 1 * 2 ^ 32) at 1 by lia.
      rewrite Z.mod_add by lia. reflexivity. }
  lia.
Qed.

(** C1 (the code departs from it).  [shifted_buffer] has all its planes in one
    file descriptor, back-to-back with no gaps, and the descriptor promised
    for it is (3, 4096, 150); yet [buffer_at] aborts on it instead of
    returning that descriptor. *)
Theorem buffer_at_aborts_on_contiguous_shifted_buffer :
  contiguous shifted_buffer /\
  spec_descriptor shifted_buffer =
    Some {| fd := 3; offset := 4096; length := 150 |} /\
  buffer_at 0 shifted_session = (Aborts, shifted_session, []).
Proof.
  split; [|split].
  - unfold contiguous, shifted_buffer. simpl. repeat split; reflexivity.
  - reflexivity.
  - vm_compute. reflexivity.
Qed.

(** ** The request pool built by [open_camera] *)

Lemma pool_requests_length i buffers :
  List.length (pool_requests i buffers) = List.length buffers.
Proof.
  revert i. induction buffers as [|b rest IH]; intros i; simpl; [reflexivity|].
  rewrite IH. reflexivity.
Qed.

(** The loop touches neither the file-scope variables nor any resource
    before it unwinds; it ends either with the whole pool or with -EINVAL
    after the full unwinding sequence. *)
Lemma build_requests_cases st g buffers : forall i reqs,
  exists pre,
    acquired pre = [] /\ released pre = [] /\
    (build_requests st buffers i reqs g =
       (Returns (inr (reqs ++ pool_requests i buffers)), g, pre) \/
     build_requests st buffers i reqs g =
       (Returns (inl (- EINVAL)), g, pre ++ [EvFree; EvRelease; EvManagerStop])).
Proof.
  induction buffers as [|b rest IH]; intros i reqs.
  - exists []. simpl. rewrite app_nil_r. auto.
  - cbn [build_requests pool_requests]. run.
    destruct (stk_createRequest st (Z.of_nat i)).
    + run. case_decide as Hbind.
      * exists [EvCreateRequest (Z.of_nat i); EvAddBuffer (Z.of_nat i)].
        split; [reflexivity|]. split; [reflexivity|]. right.
        unfold unwind_buffers. run. reflexivity.
      * destruct (IH (S i) (reqs ++ [new_request i b])) as (pre & Ha & Hr & [H|H]);
          exists (EvCreateRequest (Z.of_nat i) :: EvAddBuffer (Z.of_nat i) :: pre);
          (split; [exact Ha|]); (split; [exact Hr|]); rewrite H; run.
        -- left. rewrite <- app_assoc. reflexivity.
        -- right. reflexivity.
    + exists [EvCreateRequest (Z.of_nat i)].
      split; [reflexivity|]. split; [reflexivity|]. right.
      unfold unwind_buffers. run. reflexivity.
Qed.

(** ** Stepping through [open_camera] *)

Lemma index_Some {A} (v : list A) i a : v !! i = Some a -> index v i = ret a.
Proof. intros H. unfold index. rewrite H. reflexivity. Qed.

Lemma index_None {A} (v : list A) i : v !! i = None -> index v i = undefined.
Proof. intros H. unfold index. rewrite H. reflexivity. Qed.

Lemma bind_assoc {A B C} (m : M A) (f : A -> M B) (k : B -> M C) g :
  ((m ≫= f) ≫= k) g = (m ≫= (fun x => f x ≫= k)) g.
Proof.
  unfold mbind, M_bind, bind.
  destruct (m g) as [[[a|e| |] g1] t1]; try reflexivity.
  destruct (f a g1) as [[[b|e| |] g2] t2]; try reflexivity.
  destruct (k b g2) as [[o g3] t3]. rewrite app_assoc. reflexivity.
Qed.

Lemma after_all_triple {A} t0 (o : outcome A) g t :
  after_all t0 (o, g, t) = (o, g, t0 ++ t).
Proof. reflexivity. Qed.

Lemma bind_Returns {A B} (m : M A) (f : A -> M B) g a g1 t1 :
  m g = (Returns a, g1, t1) -> (m ≫= f) g = after_all t1 (f a g1).
Proof.
  intros Hm. unfold mbind, M_bind, bind. rewrite Hm.
  destruct (f a g1) as [[o g2] t2]. reflexivity.
Qed.

#[global] Hint Rewrite @bind_assoc @after_all_triple : run.

(** Case analysis on the unchecked access [v[i]] at the head of the goal. *)
Ltac case_index v i a E :=
  destruct (v !! i) as [a|] eqn:E;
  [rewrite (index_Some v i a E) | rewrite (index_None v i E)]; run.

(** Every path of [open_camera]: either the file-scope variables are
    untouched and the status, if one is returned, is nonzero with every
    resource taken given back in reverse order; or 0 is returned and the
    variables hold the new session. *)
Lemma open_camera_inv st w h hd g o g' t :
  open_camera st w h hd g = (o, g', t) ->
  (g' = g /\ o <> Returns 0 /\
   forall r, o = Returns r -> released t = rev (acquired t)) \/
  (o = Returns 0 /\
   exists c conf2 vis,
     configured st c w h conf2 /\ conf2 !! 0%nat = Some vis /\
     ~ stk_allocate st < 0 /\ g' = opened st hd c conf2).
Proof.
  unfold open_camera, unwind_manager, unwind_camera.
  run. cbn zeta. cbn [cm_cameras fba_buffers].
  case_decide as Hs.
  { run. intros [= ? ? ?]; subst o g' t. left.
    split; [done|]. split; [congruence|]. intros r _.
    unfold released, acquired. simpl. rewrite decide_False by done. done. }
  rewrite Hs.
  destruct (stk_cameras st) as [|c cams] eqn:Hcams.
  { run. intros [= ? ? ?]; subst o g' t. left. done. }
  run. case_decide as Hacq.
  { run. intros [= ? ? ?]; subst o g' t. left.
    split; [done|]. split; [congruence|]. intros r _.
    unfold released, acquired. simpl. rewrite decide_False by done. done. }
  rewrite Hacq. run.
  destruct (stk_generateConfiguration st) as [conf0|] eqn:Hgen.
  2:{ run. intros [= ? ? ?]; subst o g' t. left. done. }
  case_index conf0 0%nat sc0 H0.
  2:{ intros [= ? ? ?]; subst o g' t. left. done. }
  case_index (<[0%nat:=set_visible w h sc0]> conf0) 1%nat raw0 H1.
  2:{ intros [= ? ? ?]; subst o g' t. left. done. }
  destruct (PixelArraySize c) as [sensor|] eqn:Hpas; run.
  2:{ intros [= ? ? ?]; subst o g' t. left. done. }
  set (conf := <[1%nat:=set_raw sensor raw0]> _).
  case_index (stk_validate st conf) 0%nat vis Hvis.
  2:{ intros [= ? ? ?]; subst o g' t. left. done. }
  case_decide as Hfmt.
  { run. intros [= ? ? ?]; subst o g' t. left. done. }
  run. set (conf2 := stk_validate st (stk_validate st conf)).
  case_decide as Hcfg.
  { run. intros [= ? ? ?]; subst o g' t. left.
    split; [done|]. split; [congruence|]. intros r _. done. }
  rewrite Hcfg.
  case_index conf2 0%nat vis2 Hvis2.
  2:{ intros [= ? ? ?]; subst o g' t. left. done. }
  case_decide as Hall.
  { run. intros [= ? ? ?]; subst o g' t. left.
    split; [done|]. split; [done|]. intros r _.
    unfold released, acquired. simpl. rewrite decide_True by done. done. }
  destruct (build_requests_cases st g (stk_buffers st) 0 [])
    as (pre & Ha & Hr & [Hb|Hb]); rewrite (bind_Returns _ _ _ _ _ _ Hb); run.
  - intros [= ? ? ?]; subst o g' t. right. split; [done|].
    exists c, conf2, vis2. split; [|split; [done|split; [done|]]].
    + split.
      { unfold device_acquired. rewrite Hcams. simpl. auto. }
      exists conf, vis. split; [|auto].
      exists conf0, sc0, raw0, sensor.
      rewrite list_lookup_insert_ne in H1 by done. auto.
    + unfold opened. rewrite Hcams. done.
  - intros [= ? ? ?]; subst o g' t. left.
    split; [done|]. split; [done|]. intros r _.
    unfold released, acquired in *. cbn [omap list_omap acquires releases].
    rewrite (decide_False (P := stk_allocate st < 0)) by done.
    rewrite !omap_app, Ha, Hr. reflexivity.
Qed.

(** ** The Completion Bridge *)

(** C6.  A completion whose status is Cancelled makes no call to the
    caller's callback; any other completion makes exactly one call, with the
    stored callback token and the cookie of the completed request. *)
Theorem requestComplete_dispatch (req : Request) (g : Session) :
  requestComplete req g =
    (Returns tt, g,
     if decide (req_status req = RequestCancelled) then []
     else [EvCallback (callback_handle g) (req_cookie req)]).
Proof.
  unfold requestComplete. case_decide; [reflexivity|].
  run. reflexivity.
Qed.

(** ** num_buffers *)

Lemma num_buffers_run g :
  num_buffers g = (Returns (List.length (requests g)), g, []).
Proof. unfold num_buffers. run. reflexivity. Qed.

(** ** close_camera *)

(** C5.  On an open session [close_camera] runs to its end whatever the
    session holds: it stops the device, drops the requests, frees the
    buffers, releases the device and stops the manager, in this order, and
    leaves manager, camera, allocator and requests released. *)
Theorem close_camera_teardown (g : Session) :
  session_open g ->
  close_camera g =
    (Returns tt, closed_from g,
     [EvCameraStop; EvRequestsClear; EvFree; EvRelease; EvManagerStop]) /\
  session_released (closed_from g).
Proof.
  intros (cm & c & a & conf & sc & Hcm & Hc & Ha & Hconf & Hsc).
  split; [|repeat split].
  unfold close_camera. run. rewrite Hc. run. rewrite Hconf. run.
  rewrite (index_Some _ _ _ Hsc). run. rewrite Ha. run. rewrite Hcm. run.
  reflexivity.
Qed.

Lemma close_camera_teardown_witness :
  session_open shifted_session /\
  close_camera shifted_session =
    (Returns tt, closed_from shifted_session,
     [EvCameraStop; EvRequestsClear; EvFree; EvRelease; EvManagerStop]) /\
  session_released (closed_from shifted_session).
Proof.
  assert (H : session_open shifted_session).
  { unfold session_open, shifted_session. simpl. eauto 10. }
  split; [exact H|]. exact (close_camera_teardown shifted_session H).
Defined.

(** ** start_camera *)

Lemma int_of_uint_half z : int_of_uint (wrap32 z `div` 2) = wrap32 z `div` 2.
Proof.
  unfold int_of_uint. pose proof (wrap32_range z) as H.
  unfold UINT_MODULUS in *.
  rewrite decide_True; [reflexivity|].
  apply Z.div_lt_upper_bound; lia.
Qed.

(** The crop in the code's own arithmetic: the conversion to [int] never
    changes the halved difference. *)
Lemma scaler_crop_wrap sensor w h :
  scaler_crop sensor w h =
    {| r_x := wrap32 (sz_width sensor - w) `div` 2;
       r_y := wrap32 (sz_height sensor - h) `div` 2;
       r_width := w; r_height := h |}.
Proof. unfold scaler_crop. rewrite !int_of_uint_half. reflexivity. Qed.

(** Within the sensor bounds the crop is the centred one. *)
Lemma scaler_crop_centered sensor w h :
  0 <= w <= sz_width sensor -> sz_width sensor < UINT_MODULUS ->
  0 <= h <= sz_height sensor -> sz_height sensor < UINT_MODULUS ->
  scaler_crop sensor w h = centered_crop sensor w h.
Proof.
  intros Hw Hsw Hh Hsh. rewrite scaler_crop_wrap. unfold centered_crop.
  rewrite !wrap32_small by lia. reflexivity.
Qed.

(** Without a pixel-array size the crop sits at the origin. *)
Lemma scaler_crop_fallback w h :
  scaler_crop {| sz_width := w; sz_height := h |} w h =
    {| r_x := 0; r_y := 0; r_width := w; r_height := h |}.
Proof.
  rewrite scaler_crop_wrap. cbn [sz_width sz_height].
  rewrite !Z.sub_diag. reflexivity.
Qed.

Lemma queue_all_accepted st g reqs :
  Forall (fun r => stk_queueRequest st r = 0) reqs ->
  queue_all st reqs g = (Returns 0, g, submission <$> reqs).
Proof.
  induction 1 as [|r reqs Hr _ IH]; [reflexivity|].
  cbn [queue_all]. run. rewrite decide_False by lia.
  rewrite IH. run. reflexivity.
Qed.

Lemma queue_all_refused st g pre r post :
  Forall (fun r => stk_queueRequest st r = 0) pre ->
  stk_queueRequest st r <> 0 ->
  queue_all st (pre ++ r :: post) g =
    (Returns (stk_queueRequest st r), g, submission <$> (pre ++ [r])).
Proof.
  intros Hpre Hr. induction Hpre as [|r0 pre Hr0 _ IH].
  - cbn [app queue_all]. run. rewrite decide_True by done. run. reflexivity.
  - cbn [app queue_all]. run. rewrite decide_False by lia.
    rewrite IH. run. reflexivity.
Qed.

Lemma queue_all_final st g reqs : final (queue_all st reqs g) = g.
Proof.
  induction reqs as [|r reqs IH]; [reflexivity|].
  cbn [queue_all]. run. case_decide as Hq; [run; reflexivity|].
  destruct (queue_all st reqs g) as [[o g1] t1]. exact IH.
Qed.

Lemma start_camera_final st w h g : final (start_camera st w h g) = g.
Proof.
  unfold start_camera. run. destruct (camera g); run; [|reflexivity].
  cbn zeta. case_decide as Hstart; [run; reflexivity|].
  pose proof (queue_all_final st g (requests g)) as Hq.
  destruct (queue_all st (requests g) g) as [[o g1] t1]. exact Hq.
Qed.

Lemma demo_session_open : session_open demo_session.
Proof. unfold session_open. vm_compute. eauto 10. Qed.

(** C3 (as amended).  On a session whose camera is set, [start_camera]
    computes the crop x = (sensorWidth - width) / 2, y = (sensorHeight -
    height) / 2 in unsigned 32-bit arithmetic, which is the centred
    rectangle whenever the request lies within the sensor and the origin
    when the device has no pixel-array size; it starts the device with that
    crop.  A nonzero status of the device start is returned at once and no
    request is queued.  Otherwise the pooled requests are queued once each
    in pool order; the first nonzero queue status is returned at once and
    the requests after it are not queued. *)
Theorem start_camera_crop_and_queue (st : Stack) (w h : Z) (g : Session)
    (c : Camera) :
  camera g = Some c ->
  let sensor := default {| sz_width := w; sz_height := h |} (PixelArraySize c) in
  let crop := {| r_x := wrap32 (sz_width sensor - w) `div` 2;
                 r_y := wrap32 (sz_height sensor - h) `div` 2;
                 r_width := w; r_height := h |} in
  (0 <= w <= sz_width sensor -> sz_width sensor < UINT_MODULUS ->
   0 <= h <= sz_height sensor -> sz_height sensor < UINT_MODULUS ->
   crop = centered_crop sensor w h) /\
  (PixelArraySize c = None ->
   crop = {| r_x := 0; r_y := 0; r_width := w; r_height := h |}) /\
  (stk_start st crop <> 0 ->
   start_camera st w h g =
     (Returns (stk_start st crop), g, [EvCameraStart crop])) /\
  (stk_start st crop = 0 ->
   Forall (fun r => stk_queueRequest st r = 0) (requests g) ->
   start_camera st w h g =
     (Returns 0, g, EvCameraStart crop :: (submission <$> requests g))) /\
  (forall pre r post,
     stk_start st crop = 0 ->
     requests g = pre ++ r :: post ->
     Forall (fun r => stk_queueRequest st r = 0) pre ->
     stk_queueRequest st r <> 0 ->
     start_camera st w h g =
       (Returns (stk_queueRequest st r), g,
        EvCameraStart crop :: (submission <$> pre ++ [r]))).
Proof.
  intros Hc sensor crop.
  assert (Hcrop : scaler_crop sensor w h = crop) by apply scaler_crop_wrap.
  assert (Hrun : start_camera st w h g =
            after (EvCameraStart crop)
              (if decide (stk_start st crop <> 0)
               then (Returns (stk_start st crop), g, [])
               else queue_all st (requests g) g)).
  { unfold start_camera. run. rewrite Hc. run. cbn zeta.
    fold sensor. rewrite Hcrop. case_decide; reflexivity. }
  split; [|split; [|split; [|split]]].
  - intros Hw Hsw Hh Hsh. rewrite <- Hcrop.
    apply scaler_crop_centered; assumption.
  - intros Hnone. rewrite <- Hcrop. subst sensor. rewrite Hnone.
    apply scaler_crop_fallback.
  - intros Hs. rewrite Hrun, decide_True by exact Hs. reflexivity.
  - intros Hs Hall. rewrite Hrun, decide_False by lia.
    rewrite (queue_all_accepted st g _ Hall). reflexivity.
  - intros pre r post Hs Hreqs Hpre Hr. rewrite Hrun, decide_False by lia.
    rewrite Hreqs, (queue_all_refused st g pre r post Hpre Hr). reflexivity.
Qed.

Lemma start_camera_crop_and_queue_witness :
  camera demo_session = Some demo_camera /\
  start_camera refusing_start 640 480 demo_session =
    (Returns (-5), demo_session, [EvCameraStart demo_crop]) /\
  start_camera demo_stack 640 480 demo_session =
    (Returns 0, demo_session,
     [EvCameraStart demo_crop; EvQueueRequest 0; EvQueueRequest 1]) /\
  start_camera refusing_first 640 480 demo_session =
    (Returns (-16), demo_session, [EvCameraStart demo_crop; EvQueueRequest 0]) /\
  demo_crop =
    centered_crop {| sz_width := 3280; sz_height := 2464 |} 640 480.
Proof.
  assert (Hc : camera demo_session = Some demo_camera) by reflexivity.
  split; [exact Hc|].
  pose proof (start_camera_crop_and_queue refusing_start 640 480 _ _ Hc)
    as (_ & _ & Hrefused & _).
  pose proof (start_camera_crop_and_queue demo_stack 640 480 _ _ Hc)
    as (Hcentered & _ & _ & Hall & _).
  pose proof (start_camera_crop_and_queue refusing_first 640 480 _ _ Hc)
    as (_ & _ & _ & _ & Hfirst).
  split; [|split; [|split]].
  - apply Hrefused. vm_compute. discriminate.
  - apply Hall; [reflexivity|]. repeat constructor.
  - apply (Hfirst [] (new_request 0 demo_buffer) [new_request 1 demo_buffer]);
      [reflexivity | reflexivity | constructor | vm_compute; discriminate].
  - apply Hcentered; vm_compute; split; discriminate || reflexivity.
Defined.

(** C3 (as stated) fails: every request of the pool would be accepted, yet
    none is queued, because the device start itself returned -5. *)
Lemma start_camera_refused_start_queues_nothing :
  session_open demo_session /\
  requests demo_session =
    [new_request 0 demo_buffer; new_request 1 demo_buffer] /\
  (forall r, stk_queueRequest refusing_start r = 0) /\
  start_camera refusing_start 640 480 demo_session =
    (Returns (-5), demo_session, [EvCameraStart demo_crop]) /\
  ~ In (EvQueueRequest 0) (trace (start_camera refusing_start 640 480 demo_session)).
Proof.
  split; [exact demo_session_open|].
  split; [reflexivity|]. split; [reflexivity|].
  split; [vm_compute; reflexivity|].
  vm_compute. intros [H|[]]. discriminate H.
Qed.

(** ** queue_request *)

Lemma queue_request_out_of_range st g i :
  requests g !! i = None ->
  queue_request st i g = (Throws out_of_range, g, []).
Proof.
  intros H. unfold queue_request, vector_at. run. rewrite H. run. reflexivity.
Qed.

Lemma queue_request_in_range st g i req c :
  requests g !! i = Some req -> camera g = Some c ->
  queue_request st i g =
    (Returns (stk_queueRequest st (reuse req)),
     set_requests (<[i := reuse req]> (requests g)) g,
     [EvReuse (req_cookie req); EvQueueRequest (req_cookie req)]).
Proof.
  intros H Hc. unfold queue_request, vector_at. run. rewrite H. run.
  rewrite Hc. run. reflexivity.
Qed.

(** A call that returns has found its request and stored it back reused. *)
Lemma queue_request_Returns st g i r g' t :
  queue_request st i g = (Returns r, g', t) ->
  exists req, requests g !! i = Some req /\
    g' = set_requests (<[i := reuse req]> (requests g)) g.
Proof.
  unfold queue_request, vector_at. run.
  destruct (requests g !! i) as [req|] eqn:H; run; [|discriminate].
  destruct (camera g); run; [|discriminate].
  intros [= _ <- _]. exists req. auto.
Qed.

(** ** The states the entry points can reach *)

Lemma close_camera_Returns g g' t :
  close_camera g = (Returns tt, g', t) -> g' = closed_from g.
Proof.
  unfold close_camera. run.
  destruct (camera g); run; [|discriminate].
  destruct (config g) as [conf|]; run; [|discriminate].
  destruct (conf !! 0%nat) as [sc|] eqn:Hsc;
    [rewrite (index_Some _ _ _ Hsc) | rewrite (index_None _ _ Hsc)]; run;
    [|discriminate].
  destruct (allocator g); run; [|discriminate].
  destruct (cam_manager g); run; [|discriminate].
  intros [= <- _]. reflexivity.
Qed.

Lemma opened_inv st hd c conf sc :
  conf !! 0%nat = Some sc -> session_inv (opened st hd c conf).
Proof.
  intros Hsc. left. split.
  - unfold session_open, opened. cbn. eauto 10.
  - intros a [= <-]. cbn. symmetry. apply pool_requests_length.
Qed.

Lemma reachable_inv g : reachable g -> session_inv g.
Proof.
  induction 1 as [| st w h hd g r g' t _ IH Hrun | st w h g r g' t _ IH Hrun
                  | st i g r g' t _ IH Hrun | g g' t _ IH Hrun].
  - right. repeat split.
  - apply open_camera_inv in Hrun
      as [(-> & _) | (_ & c & conf2 & vis & _ & Hvis & _ & ->)]; [exact IH|].
    exact (opened_inv st hd c conf2 vis Hvis).
  - pose proof (start_camera_final st w h g) as Hf. rewrite Hrun in Hf.
    cbn in Hf. subst g'. exact IH.
  - apply queue_request_Returns in Hrun as (req & Hreq & ->).
    destruct IH as [[Hopen Hpool] | (_ & _ & _ & Hnil)].
    + left. split; [exact Hopen|].
      intros a Ha. cbn in *. rewrite length_insert. apply Hpool. exact Ha.
    + rewrite Hnil in Hreq. discriminate.
  - apply close_camera_Returns in Hrun as ->. right. repeat split.
Qed.

Lemma demo_session_reachable : reachable demo_session.
Proof.
  apply (reach_open demo_stack 640 480 7 closed_session 0 demo_session
           (trace (open_camera demo_stack 640 480 7 closed_session))
           reach_initial).
  vm_compute. reflexivity.
Qed.

(** C7.  Past the end of the pool [queue_request] throws
    [std::out_of_range], with no call to the stack and the session
    untouched.  Within the pool, whatever status the request at [i] has, it
    is stored back with status pending, its cookie and its buffer kept; it
    is then submitted to the device once as such, and the status of that one
    submission is returned. *)
Theorem queue_request_checked (st : Stack) (g : Session) (i n : nat) :
  num_buffers g = (Returns n, g, []) ->
  ((n <= i)%nat -> queue_request st i g = (Throws out_of_range, g, [])) /\
  ((i < n)%nat ->
   forall c, camera g = Some c ->
   exists req,
     requests g !! i = Some req /\
     let marked := {| req_cookie := req_cookie req;
                      req_status := RequestPending;
                      req_buffer := req_buffer req |} in
     queue_request st i g =
       (Returns (stk_queueRequest st marked),
        set_requests (<[i := marked]> (requests g)) g,
        [EvReuse (req_cookie req); EvQueueRequest (req_cookie req)]) /\
     requests (final (queue_request st i g)) !! i = Some marked).
Proof.
  intros Hn. rewrite num_buffers_run in Hn. injection Hn as <-.
  split.
  - intros Hge. apply queue_request_out_of_range.
    apply lookup_ge_None. exact Hge.
  - intros Hlt c Hc.
    destruct (lookup_lt_is_Some_2 (requests g) i Hlt) as [req Hreq].
    exists req. split; [exact Hreq|]. cbn zeta.
    rewrite (queue_request_in_range st g i req c Hreq Hc).
    split; [reflexivity|].
    cbn [final fst snd requests set_requests].
    apply list_lookup_insert_eq. exact Hlt.
Qed.

Lemma queue_request_checked_witness :
  num_buffers completed_session = (Returns 2%nat, completed_session, []) /\
  camera completed_session = Some demo_camera /\
  queue_request refusing_first 2 completed_session =
    (Throws out_of_range, completed_session, []) /\
  requests completed_session !! 0%nat = Some completed_request /\
  queue_request refusing_first 0 completed_session =
    (Returns (-16), demo_session, [EvReuse 0; EvQueueRequest 0]) /\
  requests (final (queue_request refusing_first 0 completed_session)) !! 0%nat =
    Some {| req_cookie := 0; req_status := RequestPending;
            req_buffer := Some demo_buffer |}.
Proof.
  assert (Hn : num_buffers completed_session =
               (Returns 2%nat, completed_session, [])) by reflexivity.
  assert (Hc : camera completed_session = Some demo_camera) by reflexivity.
  split; [exact Hn|]. split; [exact Hc|].
  destruct (queue_request_checked refusing_first completed_session 2 2 Hn)
    as [Hpast _].
  destruct (queue_request_checked refusing_first completed_session 0 2 Hn)
    as [_ Hin].
  split; [apply Hpast; lia|].
  destruct (Hin ltac:(lia) demo_camera Hc) as (req & Hreq & Hrun & Hstored).
  assert (Hcompleted : requests completed_session !! 0%nat =
                       Some completed_request) by reflexivity.
  rewrite Hcompleted in Hreq. injection Hreq as <-.
  split; [reflexivity|]. split; [exact Hrun | exact Hstored].
Defined.

(** C10.  [buffer_at] indexes the allocator's buffers without a check: in
    every reachable state an index at or past [num_buffers()] is an access
    past the end, where [queue_request] with the same index throws
    [std::out_of_range]. *)
Theorem buffer_at_unchecked (st : Stack) (g : Session) (idx n : nat) :
  reachable g ->
  num_buffers g = (Returns n, g, []) ->
  (n <= idx)%nat ->
  buffer_at idx g = (Undefined, g, []) /\
  queue_request st idx g = (Throws out_of_range, g, []).
Proof.
  intros Hreach Hn Hge. rewrite num_buffers_run in Hn. injection Hn as <-.
  split; [|apply queue_request_out_of_range, lookup_ge_None; exact Hge].
  unfold buffer_at. run.
  destruct (config g) as [conf|]; run; [|reflexivity].
  destruct (conf !! 0%nat) as [sc|] eqn:Hsc;
    [rewrite (index_Some _ _ _ Hsc) | rewrite (index_None _ _ Hsc)]; run;
    [|reflexivity].
  destruct (allocator g) as [a|] eqn:Ha; run; [|reflexivity].
  destruct (reachable_inv g Hreach) as [[_ Hpool] | (_ & _ & Hnone & _)];
    [|congruence].
  rewrite index_None; [reflexivity|].
  apply lookup_ge_None. rewrite (Hpool a Ha). exact Hge.
Qed.

Lemma buffer_at_unchecked_witness :
  reachable demo_session /\
  num_buffers demo_session = (Returns 2%nat, demo_session, []) /\
  (2 <= 2)%nat /\
  buffer_at 2 demo_session = (Undefined, demo_session, []) /\
  queue_request demo_stack 2 demo_session =
    (Throws out_of_range, demo_session, []).
Proof.
  assert (Hn : num_buffers demo_session = (Returns 2%nat, demo_session, []))
    by reflexivity.
  split; [exact demo_session_reachable|]. split; [exact Hn|].
  split; [lia|].
  apply (buffer_at_unchecked demo_stack demo_session 2 2
           demo_session_reachable Hn). lia.
Defined.

(** ** The failure paths of [open_camera] *)

Lemma index_insert_ne {A} (v : list A) i j x :
  i <> j -> index (<[i := x]> v) j = index v j.
Proof. intros H. unfold index. rewrite list_lookup_insert_ne by exact H. reflexivity. Qed.

(** Settle a test of the code from the hypotheses at hand. *)
Ltac settle_test :=
  match goal with
  | |- context [decide ?P] =>
      first [ rewrite (decide_True (P := P)) by (assumption || lia || tauto)
            | rewrite (decide_False (P := P)) by (assumption || lia || tauto) ]
  end.

(** Follow [open_camera] along the path the hypotheses select. *)
Ltac open_run :=
  unfold open_camera, unwind_manager, unwind_camera, unwind_buffers;
  repeat first
    [ progress (run; cbn zeta; cbn [cm_cameras fba_buffers])
    | settle_test
    | rewrite index_insert_ne by done
    | match goal with
      | H : ?v !! ?i = Some ?a |- context [index ?v ?i] =>
          rewrite (index_Some v i a H)
      | H : ?x = _ |- context [optional_value ?x] => rewrite H
      | H : ?x = _ |- context [deref ?x] => rewrite H
      | H : ?x = Some _ |- context [match ?x with Some _ => _ | None => _ end] =>
          rewrite H
      | H : ?x = None |- context [match ?x with Some _ => _ | None => _ end] =>
          rewrite H
      | H : ?x = _ :: _ |- context [match ?x with [] => _ | _ :: _ => _ end] =>
          rewrite H
      | H : ?x = [] |- context [match ?x with [] => _ | _ :: _ => _ end] =>
          rewrite H
      end ].

Lemma device_acquired_first st c :
  device_acquired st c ->
  stk_manager_start st = 0 /\ (exists cams, stk_cameras st = c :: cams) /\
  stk_acquire st = 0.
Proof.
  intros (Hs & Hhead & Hacq). split; [exact Hs|]. split; [|exact Hacq].
  destruct (stk_cameras st) as [|c' cams]; [discriminate|].
  injection Hhead as ->. eauto.
Qed.

Lemma open_camera_manager_start_fails st w h hd g :
  stk_manager_start st <> 0 ->
  open_camera st w h hd g =
    (Returns (stk_manager_start st), g,
     [EvManagerStart (stk_manager_start st)]).
Proof. intros Hs. open_run. reflexivity. Qed.

Lemma open_camera_no_device st w h hd g :
  stk_manager_start st = 0 -> stk_cameras st = [] ->
  open_camera st w h hd g =
    (Returns (- EINVAL), g, [EvManagerStart 0; EvManagerStop]).
Proof. intros Hs Hcams. open_run. rewrite Hs. reflexivity. Qed.

Lemma open_camera_acquire_fails st w h hd g c :
  stk_manager_start st = 0 -> head (stk_cameras st) = Some c ->
  stk_acquire st <> 0 ->
  open_camera st w h hd g =
    (Returns (stk_acquire st), g,
     [EvManagerStart 0; EvAcquire (stk_acquire st); EvManagerStop]).
Proof.
  intros Hs Hhead Hacq.
  destruct (stk_cameras st) as [|c' cams] eqn:Hcams; [discriminate|].
  open_run. rewrite Hs. reflexivity.
Qed.

Lemma open_camera_no_configuration st w h hd g c :
  device_acquired st c -> stk_generateConfiguration st = None ->
  open_camera st w h hd g =
    (Returns (- EINVAL), g,
     [EvManagerStart 0; EvAcquire 0; EvGenerateConfiguration;
      EvRelease; EvManagerStop]).
Proof.
  intros (Hs & [cams Hcams] & Hacq)%device_acquired_first Hgen.
  open_run. rewrite Hs, Hacq. reflexivity.
Qed.

Lemma open_camera_no_pixel_array_size st w h hd g c conf0 sc0 raw0 :
  device_acquired st c -> stk_generateConfiguration st = Some conf0 ->
  conf0 !! 0%nat = Some sc0 -> conf0 !! 1%nat = Some raw0 ->
  PixelArraySize c = None ->
  open_camera st w h hd g =
    (Throws bad_optional_access, g,
     [EvManagerStart 0; EvAcquire 0; EvGenerateConfiguration]).
Proof.
  intros (Hs & [cams Hcams] & Hacq)%device_acquired_first Hgen H0 H1 Hpas.
  open_run. rewrite Hs, Hacq. reflexivity.
Qed.

Lemma open_camera_format_rejected st w h hd g c conf vis :
  device_acquired st c -> requested st c w h conf ->
  stk_validate st conf !! 0%nat = Some vis ->
  sc_pixelFormat vis <> YUV420 ->
  open_camera st w h hd g =
    (Returns (- EINVAL), g,
     [EvManagerStart 0; EvAcquire 0; EvGenerateConfiguration; EvValidate;
      EvRelease; EvManagerStop]).
Proof.
  intros (Hs & [cams Hcams] & Hacq)%device_acquired_first
    (conf0 & sc0 & raw0 & sensor & Hgen & H0 & H1 & Hpas & ->) Hvis Hfmt.
  open_run. rewrite Hs, Hacq. reflexivity.
Qed.

Lemma open_camera_configure_fails st w h hd g c conf vis :
  device_acquired st c -> requested st c w h conf ->
  stk_validate st conf !! 0%nat = Some vis ->
  sc_pixelFormat vis = YUV420 ->
  stk_configure st (stk_validate st (stk_validate st conf)) <> 0 ->
  open_camera st w h hd g =
    (Returns (stk_configure st (stk_validate st (stk_validate st conf))), g,
     [EvManagerStart 0; EvAcquire 0; EvGenerateConfiguration; EvValidate;
      EvValidate;
      EvConfigure (stk_configure st (stk_validate st (stk_validate st conf)));
      EvRelease; EvManagerStop]).
Proof.
  intros (Hs & [cams Hcams] & Hacq)%device_acquired_first
    (conf0 & sc0 & raw0 & sensor & Hgen & H0 & H1 & Hpas & ->) Hvis Hfmt Hcfg.
  open_run. rewrite Hs, Hacq. reflexivity.
Qed.

Lemma open_camera_allocate_fails st w h hd g c conf2 vis2 :
  configured st c w h conf2 -> conf2 !! 0%nat = Some vis2 ->
  stk_allocate st < 0 ->
  open_camera st w h hd g =
    (Returns (- EINVAL), g,
     configured_log ++ [EvAllocate (stk_allocate st); EvRelease; EvManagerStop]).
Proof.
  intros ((Hs & [cams Hcams] & Hacq)%device_acquired_first & conf & vis &
          (conf0 & sc0 & raw0 & sensor & Hgen & H0 & H1 & Hpas & ->) &
          Hvis & Hfmt & -> & Hcfg) Hvis2 Hall.
  open_run. rewrite Hs, Hacq, Hcfg. reflexivity.
Qed.

(** A loop that runs to its end has created and bound every request. *)
Lemma build_requests_complete st g buffers : forall i reqs rs g' t,
  build_requests st buffers i reqs g = (Returns (inr rs), g', t) ->
  forall j, (j < List.length buffers)%nat ->
    stk_createRequest st (Z.of_nat (i + j)) = true /\
    ~ stk_addBuffer st (Z.of_nat (i + j)) < 0.
Proof.
  induction buffers as [|b rest IH]; intros i reqs rs g' t Hrun j Hj;
    [simpl in Hj; lia|].
  revert Hrun. cbn [build_requests]. unfold unwind_buffers. run.
  destruct (stk_createRequest st (Z.of_nat i)) eqn:Hcreate; run;
    [|discriminate].
  case_decide as Hbind; run; [discriminate|].
  destruct (build_requests st rest (S i) (reqs ++ [new_request i b]) g)
    as [[o g1] t1] eqn:Hrest.
  run. intros [= -> _ _].
  destruct j as [|j].
  - rewrite Nat.add_0_r. auto.
  - replace (i + S j)%nat with (S i + j)%nat by lia.
    apply (IH _ _ _ _ _ Hrest). simpl in Hj. lia.
Qed.

(** A loop that meets a refused creation or binding at index [k] ends with
    -EINVAL after the full unwinding sequence. *)
Lemma build_requests_fails st g k :
  (k < List.length (stk_buffers st))%nat ->
  stk_createRequest st (Z.of_nat k) = false \/
    stk_addBuffer st (Z.of_nat k) < 0 ->
  exists pre,
    acquired pre = [] /\ released pre = [] /\
    build_requests st (stk_buffers st) 0 [] g =
      (Returns (inl (- EINVAL)), g, pre ++ [EvFree; EvRelease; EvManagerStop]).
Proof.
  intros Hk Hbad.
  destruct (build_requests_cases st g (stk_buffers st) 0 [])
    as (pre & Ha & Hr & [Hb|Hb]); [|eauto].
  destruct (build_requests_complete st g _ _ _ _ _ _ Hb k Hk) as [Hc Hbd].
  simpl in Hc, Hbd. destruct Hbad; [congruence | contradiction].
Qed.

Lemma open_camera_pool_fails st w h hd g c conf2 vis2 k :
  configured st c w h conf2 -> conf2 !! 0%nat = Some vis2 ->
  ~ stk_allocate st < 0 ->
  (k < List.length (stk_buffers st))%nat ->
  stk_createRequest st (Z.of_nat k) = false \/
    stk_addBuffer st (Z.of_nat k) < 0 ->
  exists pre,
    acquired pre = [] /\ released pre = [] /\
    open_camera st w h hd g =
      (Returns (- EINVAL), g,
       (configured_log ++ EvAllocate (stk_allocate st) :: pre) ++
       [EvFree; EvRelease; EvManagerStop]).
Proof.
  intros ((Hs & [cams Hcams] & Hacq)%device_acquired_first & conf & vis &
          (conf0 & sc0 & raw0 & sensor & Hgen & H0 & H1 & Hpas & ->) &
          Hvis & Hfmt & -> & Hcfg) Hvis2 Hall Hk Hbad.
  destruct (build_requests_fails st g k Hk Hbad) as (pre & Ha & Hr & Hb).
  exists pre. split; [exact Ha|]. split; [exact Hr|].
  open_run. rewrite (bind_Returns _ _ _ _ _ _ Hb). run.
  rewrite Hs, Hacq, Hcfg. unfold configured_log.
  rewrite <- !app_assoc. reflexivity.
Qed.

(** C2.  When the stack makes [open_camera] fail at one of its nine stages,
    the call returns a nonzero status with the file-scope variables as they
    were, and its log ends with the release of exactly the resources taken
    before that stage, in the reverse of the order they were taken, nothing
    having been released before.  The file-scope variables change only when
    0 is returned. *)
Theorem open_camera_unwinds (st : Stack) (w h hd : Z) (g : Session) :
  (forall s, open_fails st w h s ->
     exists r pre,
       open_camera st w h hd g =
         (Returns r, g, pre ++ (release_call <$> rev (held_before s))) /\
       r <> 0 /\ acquired pre = held_before s /\ released pre = []) /\
  (forall o g' t,
     open_camera st w h hd g = (o, g', t) -> g' <> g -> o = Returns 0).
Proof.
  split.
  - intros s Hfail.
    destruct Hfail as [Hs | Hs Hcams | c Hs Hhead Hacq | c Hdev Hgen
      | c conf vis Hdev Hreq Hvis Hfmt | c conf vis Hdev Hreq Hvis Hfmt Hcfg
      | c conf2 vis2 Hconf Hvis2 Hall | c conf2 vis2 k Hconf Hvis2 Hall Hk _ Hbad
      | c conf2 vis2 k Hconf Hvis2 Hall Hk _ _ Hbad ].
    + exists (stk_manager_start st), [EvManagerStart (stk_manager_start st)].
      rewrite open_camera_manager_start_fails by exact Hs.
      split; [reflexivity|]. split; [exact Hs|].
      unfold acquired, released. cbn. rewrite decide_False by exact Hs. done.
    + exists (- EINVAL), [EvManagerStart 0].
      rewrite open_camera_no_device by assumption. done.
    + exists (stk_acquire st), [EvManagerStart 0; EvAcquire (stk_acquire st)].
      rewrite (open_camera_acquire_fails st w h hd g c) by assumption.
      split; [reflexivity|]. split; [exact Hacq|].
      unfold acquired, released. cbn.
      rewrite (decide_False (P := stk_acquire st = 0)) by exact Hacq. done.
    + exists (- EINVAL), [EvManagerStart 0; EvAcquire 0; EvGenerateConfiguration].
      rewrite (open_camera_no_configuration st w h hd g c) by assumption. done.
    + exists (- EINVAL),
        [EvManagerStart 0; EvAcquire 0; EvGenerateConfiguration; EvValidate].
      rewrite (open_camera_format_rejected st w h hd g c conf vis) by assumption.
      done.
    + exists (stk_configure st (stk_validate st (stk_validate st conf))),
        [EvManagerStart 0; EvAcquire 0; EvGenerateConfiguration; EvValidate;
         EvValidate;
         EvConfigure (stk_configure st (stk_validate st (stk_validate st conf)))].
      rewrite (open_camera_configure_fails st w h hd g c conf vis) by assumption.
      done.
    + exists (- EINVAL), (configured_log ++ [EvAllocate (stk_allocate st)]).
      rewrite (open_camera_allocate_fails st w h hd g c conf2 vis2) by assumption.
      split; [rewrite <- app_assoc; reflexivity|]. split; [done|].
      unfold acquired, released. cbn.
      rewrite (decide_True (P := stk_allocate st < 0)) by exact Hall. done.
    + destruct (open_camera_pool_fails st w h hd g c conf2 vis2 k)
        as (pre & Ha & Hr & Hrun); [assumption | assumption | lia | exact Hk
                                   | left; exact Hbad |].
      exists (- EINVAL), (configured_log ++ EvAllocate (stk_allocate st) :: pre).
      split; [exact Hrun|]. split; [done|].
      unfold acquired, released in *. rewrite !omap_app. cbn.
      rewrite (decide_False (P := stk_allocate st < 0)) by lia.
      rewrite Ha, Hr. done.
    + destruct (open_camera_pool_fails st w h hd g c conf2 vis2 k)
        as (pre & Ha & Hr & Hrun); [assumption | assumption | lia | exact Hk
                                   | right; exact Hbad |].
      exists (- EINVAL), (configured_log ++ EvAllocate (stk_allocate st) :: pre).
      split; [exact Hrun|]. split; [done|].
      unfold acquired, released in *. rewrite !omap_app. cbn.
      rewrite (decide_False (P := stk_allocate st < 0)) by lia.
      rewrite Ha, Hr. done.
  - intros o g' t Hrun Hne.
    apply open_camera_inv in Hrun as [(Heq & _) | (Ho & _)];
      [contradiction | exact Ho].
Qed.

Lemma demo_stack_requested (st : Stack) :
  stk_generateConfiguration st = stk_generateConfiguration demo_stack ->
  requested st demo_camera 640 480 demo_requested.
Proof.
  intros Hgen.
  exists [generated_stream; generated_stream], generated_stream,
    generated_stream, {| sz_width := 3280; sz_height := 2464 |}.
  rewrite Hgen. repeat split.
Qed.

Lemma refusing_second_buffer_configured :
  configured refusing_second_buffer demo_camera 640 480 demo_configured.
Proof.
  split; [repeat split|].
  exists demo_requested, (fill_stride (set_visible 640 480 generated_stream)).
  split; [apply demo_stack_requested; reflexivity|]. repeat split.
Qed.

Lemma refusing_second_buffer_fails :
  open_fails refusing_second_buffer 640 480 AtAddBuffer.
Proof.
  apply (fails_bind _ _ _ demo_camera demo_configured
           (fill_stride (fill_stride (set_visible 640 480 generated_stream)))
           1%nat).
  - exact refusing_second_buffer_configured.
  - reflexivity.
  - vm_compute. discriminate.
  - simpl. lia.
  - intros j Hj. assert (j = 0%nat) as -> by lia.
    split; [reflexivity|]. vm_compute. discriminate.
  - reflexivity.
  - reflexivity.
Qed.

Lemma open_camera_unwinds_witness :
  open_fails refusing_second_buffer 640 480 AtAddBuffer /\
  (exists r pre,
     open_camera refusing_second_buffer 640 480 7 closed_session =
       (Returns r, closed_session, pre ++ [EvFree; EvRelease; EvManagerStop]) /\
     r <> 0 /\ acquired pre = [Manager; Device; Buffers] /\ released pre = []) /\
  demo_session <> closed_session /\
  result (open_camera demo_stack 640 480 7 closed_session) = Returns 0.
Proof.
  split; [exact refusing_second_buffer_fails|]. split.
  - exact (proj1 (open_camera_unwinds refusing_second_buffer 640 480 7
                    closed_session) AtAddBuffer refusing_second_buffer_fails).
  - assert (Hne : demo_session <> closed_session) by (vm_compute; discriminate).
    split; [exact Hne|].
    exact (proj2 (open_camera_unwinds demo_stack 640 480 7 closed_session)
             (Returns 0) demo_session
             (trace (open_camera demo_stack 640 480 7 closed_session))
             eq_refl Hne).
Defined.

(** C4 (as amended).  When the first validation, the one of line 109, hands
    back a visible stream whose pixel format is no longer YUV420,
    [open_camera] returns -EINVAL; before returning it releases the device
    and then stops the manager; the session is not set up. *)
Theorem open_camera_rejects_changed_format (st : Stack) (w h hd : Z)
    (g : Session) (c : Camera) (conf : CameraConfiguration)
    (vis : StreamConfiguration) :
  device_acquired st c ->
  requested st c w h conf ->
  stk_validate st conf !! 0%nat = Some vis ->
  sc_pixelFormat vis <> YUV420 ->
  open_camera st w h hd g =
    (Returns (- EINVAL), g,
     [EvManagerStart 0; EvAcquire 0; EvGenerateConfiguration; EvValidate] ++
     [EvRelease; EvManagerStop]) /\
  - EINVAL <> 0 /\
  result (open_camera st w h hd g) <> Returns 0.
Proof.
  intros Hdev Hreq Hvis Hfmt.
  rewrite (open_camera_format_rejected st w h hd g c conf vis) by assumption.
  split; [reflexivity|]. split; [done|]. cbn. discriminate.
Qed.

Lemma open_camera_rejects_changed_format_witness :
  device_acquired substituting_format demo_camera /\
  requested substituting_format demo_camera 640 480 demo_requested /\
  stk_validate substituting_format demo_requested !! 0%nat =
    Some (to_nv12 (set_visible 640 480 generated_stream)) /\
  sc_pixelFormat (to_nv12 (set_visible 640 480 generated_stream)) <> YUV420 /\
  open_camera substituting_format 640 480 7 closed_session =
    (Returns (-22), closed_session,
     [EvManagerStart 0; EvAcquire 0; EvGenerateConfiguration; EvValidate;
      EvRelease; EvManagerStop]).
Proof.
  assert (Hdev : device_acquired substituting_format demo_camera)
    by (repeat split).
  assert (Hreq : requested substituting_format demo_camera 640 480 demo_requested)
    by (apply demo_stack_requested; reflexivity).
  assert (Hvis : stk_validate substituting_format demo_requested !! 0%nat =
                 Some (to_nv12 (set_visible 640 480 generated_stream)))
    by reflexivity.
  assert (Hfmt : sc_pixelFormat (to_nv12 (set_visible 640 480 generated_stream))
                 <> YUV420) by discriminate.
  repeat (split; [assumption|]).
  exact (proj1 (open_camera_rejects_changed_format substituting_format
                  640 480 7 closed_session demo_camera demo_requested
                  (to_nv12 (set_visible 640 480 generated_stream))
                  Hdev Hreq Hvis Hfmt)).
Defined.

(** C4 (as stated) fails: on [late_substituting] the first validation keeps
    YUV420 for the visible stream and the second one, whose result line 115
    does not inspect, turns it into NV12; [open_camera] returns 0 and the
    session holds a visible stream that is not YUV420. *)
Lemma open_camera_accepts_late_format_change :
  device_acquired late_substituting demo_camera /\
  requested late_substituting demo_camera 640 480 demo_requested /\
  sc_pixelFormat <$> (stk_validate late_substituting demo_requested !! 0%nat) =
    Some YUV420 /\
  sc_pixelFormat <$>
    (stk_validate late_substituting
       (stk_validate late_substituting demo_requested) !! 0%nat) =
    Some (FourCC 842094158) /\
  result (open_camera late_substituting 640 480 7 closed_session) = Returns 0 /\
  released (trace (open_camera late_substituting 640 480 7 closed_session)) = [] /\
  sc_pixelFormat <$>
    (config (final (open_camera late_substituting 640 480 7 closed_session))
       ≫= (.!! 0%nat)) =
    Some (FourCC 842094158).
Proof.
  split; [repeat split|].
  split; [apply demo_stack_requested; reflexivity|].
  repeat split; vm_compute; reflexivity.
Qed.

(** ** The pixel-array size in [open_camera] *)

Lemma start_camera_returns st w h g c :
  camera g = Some c -> exists r t, start_camera st w h g = (Returns r, g, t).
Proof.
  intros Hc. unfold start_camera. run. rewrite Hc. run. cbn zeta.
  case_decide as Hs; run; [eauto|].
  assert (Hq : exists r t, queue_all st (requests g) g = (Returns r, g, t)).
  { induction (requests g) as [|req reqs IH]; [simpl; eauto|].
    cbn [queue_all]. run. case_decide as Hr; run; [eauto|].
    destruct IH as (r & t & ->). run. eauto. }
  destruct Hq as (r & t & ->). run. eauto.
Qed.

(** C9.  [open_camera] reads the pixel-array size with [value()]: on a
    device without that property the read throws, after the device was
    acquired and with nothing released, so a call that returns 0 has found
    the property on the first device.  [start_camera] on such a device
    returns all the same. *)
Theorem open_camera_needs_PixelArraySize (st : Stack) (w h hd : Z)
    (g : Session) :
  (forall c conf0 sc0 raw0,
     device_acquired st c ->
     stk_generateConfiguration st = Some conf0 ->
     conf0 !! 0%nat = Some sc0 -> conf0 !! 1%nat = Some raw0 ->
     PixelArraySize c = None ->
     open_camera st w h hd g =
       (Throws bad_optional_access, g,
        [EvManagerStart 0; EvAcquire 0; EvGenerateConfiguration])) /\
  (forall g' t,
     open_camera st w h hd g = (Returns 0, g', t) ->
     exists c sensor,
       head (stk_cameras st) = Some c /\ camera g' = Some c /\
       PixelArraySize c = Some sensor) /\
  (forall c,
     camera g = Some c -> PixelArraySize c = None ->
     exists r t, start_camera st w h g = (Returns r, g, t)).
Proof.
  split; [|split].
  - intros c conf0 sc0 raw0 Hdev Hgen H0 H1 Hpas.
    exact (open_camera_no_pixel_array_size st w h hd g c conf0 sc0 raw0
             Hdev Hgen H0 H1 Hpas).
  - intros g' t Hrun.
    apply open_camera_inv in Hrun
      as [(_ & Hne & _) | (_ & c & conf2 & vis & Hconf & _ & _ & ->)];
      [congruence|].
    destruct Hconf as ((_ & Hhead & _) & conf & vis1 &
                       (conf0 & sc0 & raw0 & sensor & _ & _ & _ & Hpas & _) & _).
    exists c, sensor. auto.
  - intros c Hc _. exact (start_camera_returns st w h g c Hc).
Qed.

Lemma open_camera_needs_PixelArraySize_witness :
  device_acquired bare_stack bare_camera /\
  PixelArraySize bare_camera = None /\
  open_camera bare_stack 640 480 7 closed_session =
    (Throws bad_optional_access, closed_session,
     [EvManagerStart 0; EvAcquire 0; EvGenerateConfiguration]) /\
  (exists c sensor,
     head (stk_cameras demo_stack) = Some c /\ camera demo_session = Some c /\
     PixelArraySize c = Some sensor) /\
  (exists r t,
     start_camera demo_stack 640 480 shifted_session =
       (Returns r, shifted_session, t)).
Proof.
  assert (Hdev : device_acquired bare_stack bare_camera) by (repeat split).
  split; [exact Hdev|]. split; [reflexivity|].
  split; [|split].
  - exact (proj1 (open_camera_needs_PixelArraySize bare_stack 640 480 7
                    closed_session)
             bare_camera [generated_stream; generated_stream]
             generated_stream generated_stream
             Hdev eq_refl eq_refl eq_refl eq_refl).
  - exact (proj1 (proj2 (open_camera_needs_PixelArraySize demo_stack 640 480 7
                           closed_session))
             demo_session
             (trace (open_camera demo_stack 640 480 7 closed_session))
             eq_refl).
  - exact (proj2 (proj2 (open_camera_needs_PixelArraySize demo_stack 640 480 7
                           shifted_session))
             {| cam_id := 0; PixelArraySize := None |} eq_refl eq_refl).
Defined.

(** ** The geometry of the session *)

Lemma frame_format_run g conf sc :
  config g = Some conf -> conf !! 0%nat = Some sc ->
  frame_format g = (Returns (geometry sc), g, []).
Proof.
  intros Hc Hsc. unfold frame_format. run. rewrite Hc. run.
  rewrite (index_Some _ _ _ Hsc). run. reflexivity.
Qed.

Lemma queue_request_config st i g : config (final (queue_request st i g)) = config g.
Proof.
  unfold queue_request, vector_at. run.
  destruct (requests g !! i) as [req|]; run; [|reflexivity].
  destruct (camera g); run; reflexivity.
Qed.

Lemma session_call_config g g' : session_call g g' -> config g' = config g.
Proof.
  intros [st w h <- | st i <-].
  - rewrite start_camera_final. reflexivity.
  - apply queue_request_config.
Qed.

Lemma session_calls_config g g' : rtc session_call g g' -> config g' = config g.
Proof.
  induction 1 as [|g g1 g2 Hcall _ IH]; [reflexivity|].
  rewrite IH. exact (session_call_config g g1 Hcall).
Qed.

Lemma requested_visible_size st c w h conf :
  requested st c w h conf ->
  sc_size <$> (conf !! 0%nat) = Some {| sz_width := w; sz_height := h |}.
Proof.
  intros (conf0 & sc0 & raw0 & sensor & _ & H0 & _ & _ & ->).
  rewrite list_lookup_insert_ne by done.
  rewrite list_lookup_insert_eq by (eapply lookup_lt_Some; exact H0).
  reflexivity.
Qed.

(** C8.  After [open_camera] has returned 0, [frame_format] returns width,
    height and stride of entry 0 of the configuration as the two validations
    left it; they are the requested width and height when validation keeps
    the size of the visible stream; and no sequence of [start_camera] and
    [queue_request] calls changes the stored configuration or what
    [frame_format] returns. *)
Theorem frame_format_after_open (st : Stack) (w h hd : Z) (g g' : Session)
    (t : list Event) :
  open_camera st w h hd g = (Returns 0, g', t) ->
  exists c conf2 vis,
    configured st c w h conf2 /\ conf2 !! 0%nat = Some vis /\
    config g' = Some conf2 /\
    frame_format g' = (Returns (geometry vis), g', []) /\
    (keeps_visible_size st ->
     width (geometry vis) = w /\ height (geometry vis) = h) /\
    (forall g'', rtc session_call g' g'' ->
       config g'' = Some conf2 /\
       frame_format g'' = (Returns (geometry vis), g'', [])).
Proof.
  intros Hrun.
  apply open_camera_inv in Hrun
    as [(_ & Hne & _) | (_ & c & conf2 & vis & Hconf & Hvis & _ & ->)];
    [congruence|].
  exists c, conf2, vis. split; [exact Hconf|]. split; [exact Hvis|].
  split; [reflexivity|].
  split; [apply (frame_format_run _ conf2 vis); [reflexivity | exact Hvis]|].
  split.
  - intros Hkeep.
    destruct Hconf as (_ & conf & vis1 & Hreq & _ & _ & -> & _).
    pose proof (requested_visible_size st c w h conf Hreq) as Hsize.
    rewrite <- (Hkeep conf), <- (Hkeep (stk_validate st conf)), Hvis in Hsize.
    injection Hsize as Hsize. unfold geometry. cbn [width height].
    rewrite Hsize. split; reflexivity.
  - intros g'' Hcalls.
    pose proof (session_calls_config _ _ Hcalls) as Hcfg. cbn in Hcfg.
    split; [exact Hcfg|].
    apply (frame_format_run _ conf2 vis); [exact Hcfg | exact Hvis].
Qed.

Lemma demo_stack_keeps_visible_size : keeps_visible_size demo_stack.
Proof.
  intros conf. cbn [stk_validate demo_stack].
  rewrite list_lookup_fmap. destruct (conf !! 0%nat); reflexivity.
Qed.

Lemma frame_format_after_open_witness :
  open_camera demo_stack 640 480 7 closed_session =
    (Returns 0, demo_session,
     trace (open_camera demo_stack 640 480 7 closed_session)) /\
  keeps_visible_size demo_stack /\
  exists vis,
    frame_format demo_session = (Returns (geometry vis), demo_session, []) /\
    width (geometry vis) = 640 /\ height (geometry vis) = 480 /\
    frame_format (final (queue_request refusing_first 0
                           (final (start_camera demo_stack 640 480 demo_session)))) =
      (Returns (geometry vis),
       final (queue_request refusing_first 0
                (final (start_camera demo_stack 640 480 demo_session))), []).
Proof.
  assert (Hrun : open_camera demo_stack 640 480 7 closed_session =
                 (Returns 0, demo_session,
                  trace (open_camera demo_stack 640 480 7 closed_session)))
    by reflexivity.
  split; [exact Hrun|]. split; [exact demo_stack_keeps_visible_size|].
  destruct (frame_format_after_open demo_stack 640 480 7 closed_session
              demo_session _ Hrun)
    as (c & conf2 & vis & _ & _ & _ & Hfmt & Hsize & Hlater).
  exists vis. split; [exact Hfmt|].
  destruct (Hsize demo_stack_keeps_visible_size) as [Hw Hh].
  split; [exact Hw|]. split; [exact Hh|].
  apply Hlater.
  eapply rtc_l; [apply (call_start _ _ demo_stack 640 480); reflexivity|].
  eapply rtc_l; [apply (call_queue _ _ refusing_first 0%nat); reflexivity|].
  apply rtc_refl.
Defined.

(** * Further properties of the entry points *)

(** ** What [buffer_at] returns *)

Lemma demo_session_buffers :
  session_with_buffers demo_configured [demo_buffer; demo_buffer] demo_session.
Proof. split; [reflexivity|]. split; [|reflexivity]. eexists. reflexivity. Qed.

Lemma demo_buffer_fits : Forall plane_fits (planes demo_buffer).
Proof. repeat constructor; vm_compute; discriminate. Qed.

Lemma demo_buffer_contiguous : contiguous demo_buffer.
Proof. unfold contiguous. simpl. repeat split. Qed.

(** X1.  A buffer whose planes lie back-to-back in one descriptor from
    offset 0 on, each ending within 32 bits, gets the descriptor of its
    first plane's fd, offset 0 and the sum of the plane lengths; nothing is
    logged and the session is untouched. *)
Theorem buffer_at_returns_zero_based_block (conf : CameraConfiguration)
    (bufs : list FrameBuffer) (g : Session) (idx : nat) (buf : FrameBuffer)
    (d : buffer) :
  session_with_buffers conf bufs g ->
  bufs !! idx = Some buf ->
  Forall plane_fits (planes buf) ->
  contiguous buf ->
  spec_descriptor buf = Some d ->
  offset d = 0 ->
  buffer_at idx g = (Returns d, g, []) /\
  length d = total_length (planes buf).
Proof.
  intros Hs Hb Hfit Hc Hd Hz. split.
  - exact (buffer_at_zero_based conf bufs g idx buf d Hs Hb Hfit Hc Hd Hz).
  - unfold spec_descriptor in Hd. destruct (planes buf); [discriminate|].
    injection Hd as <-. reflexivity.
Qed.

Lemma buffer_at_returns_zero_based_block_witness :
  session_with_buffers demo_configured [demo_buffer; demo_buffer] demo_session /\
  Forall plane_fits (planes demo_buffer) /\
  contiguous demo_buffer /\
  buffer_at 1 demo_session =
    (Returns {| fd := 5; offset := 0; length := 460800 |}, demo_session, []).
Proof.
  split; [exact demo_session_buffers|]. split; [exact demo_buffer_fits|].
  split; [exact demo_buffer_contiguous|].
  exact (proj1 (buffer_at_returns_zero_based_block demo_configured
                  [demo_buffer; demo_buffer] demo_session 1 demo_buffer
                  {| fd := 5; offset := 0; length := 460800 |}
                  demo_session_buffers eq_refl demo_buffer_fits
                  demo_buffer_contiguous eq_refl eq_refl)).
Defined.

Lemma double_wrap32_zero o :
  0 <= o < UINT_MODULUS -> o = wrap32 (o + o) -> o = 0.
Proof.
  unfold wrap32, UINT_MODULUS. intros Hr Heq.
  destruct (decide (o + o < 2 ^ 32)) as [Hlt|Hge].
  - rewrite Z.mod_small in Heq by lia. lia.
  - replace (o + o) with (o + o - 2 ^ 32 + 1 * 2 ^ 32) in Heq by lia.
    rewrite Z.mod_add, Z.mod_small in Heq by lia. lia.
Qed.

(** What the loop has checked and summed when it runs to its end. *)
Lemma check_planes_sound ps : forall b b',
  0 <= length b < UINT_MODULUS ->
  check_planes b ps = Some b' ->
  fd b' = fd b /\ offset b' = offset b /\
  Forall (fun p => p_fd p = fd b) ps /\
  length b' = wrap32 (length b + total_length ps).
Proof.
  induction ps as [|p ps IH]; intros b b' Hlen H; simpl in H.
  - injection H as <-. repeat split; [constructor|].
    simpl. rewrite Z.add_0_r, wrap32_small by exact Hlen. reflexivity.
  - case_decide as Hd; [discriminate|].
    assert (Hf : p_fd p = fd b).
    { destruct (decide (p_fd p = fd b)) as [E|E]; [exact E|].
      exfalso. apply Hd. left. exact E. }
    apply IH in H; [|simpl; apply wrap32_range].
    simpl in H. destruct H as (H1 & H2 & H3 & H4).
    repeat split; [exact H1 | exact H2 | constructor; assumption |].
    rewrite H4. simpl. unfold wrap32, UINT_MODULUS.
    rewrite Z.add_mod_idemp_l by lia. rewrite Z.add_assoc. reflexivity.
Qed.

(** X2.  Whenever [buffer_at] returns, the first plane of the buffer starts
    at offset 0, every plane is in the first plane's descriptor, and the
    descriptor returned is that fd, offset 0, and the sum of the plane
    lengths reduced modulo 2^32. *)
Theorem buffer_at_returned_descriptor (conf : CameraConfiguration)
    (bufs : list FrameBuffer) (g g' : Session) (idx : nat)
    (buf : FrameBuffer) (p : Plane) (b : buffer) (t : list Event) :
  session_with_buffers conf bufs g ->
  bufs !! idx = Some buf ->
  planes buf !! 0%nat = Some p ->
  0 <= p_offset p < UINT_MODULUS ->
  buffer_at idx g = (Returns b, g', t) ->
  p_offset p = 0 /\
  fd b = p_fd p /\ offset b = 0 /\
  Forall (fun q => p_fd q = p_fd p) (planes buf) /\
  length b = wrap32 (total_length (planes buf)).
Proof.
  intros Hs Hb Hp Hr Hrun.
  rewrite (buffer_at_unfold conf bufs g idx buf p Hs Hb Hp) in Hrun.
  destruct (check_planes _ (planes buf)) as [b0|] eqn:Hcheck; [|discriminate].
  injection Hrun as -> _ _.
  assert (Hzero : p_offset p = 0).
  { destruct (planes buf) as [|p' ps]; [discriminate|].
    injection Hp as ->. simpl in Hcheck.
    case_decide as Hd; [discriminate|].
    apply double_wrap32_zero; [exact Hr|].
    destruct (decide (p_offset p = wrap32 (p_offset p + p_offset p)))
      as [E|E]; [exact E|]. exfalso. apply Hd. right. exact E. }
  apply check_planes_sound in Hcheck; [|exact Hr].
  cbn [fd offset length] in Hcheck. destruct Hcheck as (H1 & H2 & H3 & H4).
  rewrite Hzero in H2, H4. rewrite Z.add_0_l in H4. auto.
Qed.

Lemma buffer_at_returned_descriptor_witness :
  session_with_buffers demo_configured [demo_buffer; demo_buffer] demo_session /\
  buffer_at 0 demo_session =
    (Returns {| fd := 5; offset := 0; length := 460800 |}, demo_session, []) /\
  460800 = wrap32 (total_length (planes demo_buffer)).
Proof.
  split; [exact demo_session_buffers|]. split; [reflexivity|].
  refine (proj2 (proj2 (proj2 (proj2
    (buffer_at_returned_descriptor demo_configured [demo_buffer; demo_buffer]
       demo_session demo_session 0 demo_buffer
       {| p_fd := 5; p_offset := 0; p_length := 307200 |}
       {| fd := 5; offset := 0; length := 460800 |} []
       demo_session_buffers eq_refl eq_refl _ eq_refl))))).
  vm_compute. split; [discriminate | reflexivity].
Defined.

(** X3.  A buffer based at offset 0 whose planes are not back-to-back in one
    descriptor makes [buffer_at] abort; no descriptor is returned. *)
Theorem buffer_at_aborts_on_gap (conf : CameraConfiguration)
    (bufs : list FrameBuffer) (g : Session) (idx : nat) (buf : FrameBuffer)
    (p : Plane) :
  session_with_buffers conf bufs g ->
  bufs !! idx = Some buf ->
  planes buf !! 0%nat = Some p ->
  Forall plane_fits (planes buf) ->
  p_offset p = 0 ->
  ~ contiguous buf ->
  buffer_at idx g = (Aborts, g, []).
Proof. exact (buffer_at_not_contiguous conf bufs g idx buf p). Qed.

Lemma gapped_session_buffers :
  session_with_buffers [plain_stream; plain_stream] [gapped_buffer] gapped_session.
Proof. split; [reflexivity|]. split; [|reflexivity]. eexists. reflexivity. Qed.

Lemma buffer_at_aborts_on_gap_witness :
  session_with_buffers [plain_stream; plain_stream] [gapped_buffer] gapped_session /\
  Forall plane_fits (planes gapped_buffer) /\
  ~ contiguous gapped_buffer /\
  buffer_at 0 gapped_session = (Aborts, gapped_session, []).
Proof.
  assert (Hfit : Forall plane_fits (planes gapped_buffer))
    by (repeat constructor; vm_compute; discriminate).
  assert (Hgap : ~ contiguous gapped_buffer).
  { unfold contiguous. simpl. intros (_ & _ & _ & H & _). discriminate H. }
  split; [exact gapped_session_buffers|]. split; [exact Hfit|].
  split; [exact Hgap|].
  exact (buffer_at_aborts_on_gap [plain_stream; plain_stream] [gapped_buffer]
           gapped_session 0 gapped_buffer
           {| p_fd := 5; p_offset := 0; p_length := 100 |}
           gapped_session_buffers eq_refl eq_refl Hfit eq_refl Hgap).
Defined.

(** X4.  Whatever the layout of its planes, a buffer whose first plane
    starts at a nonzero offset makes [buffer_at] abort: the accumulated
    length starts at that offset (line 35), so the first plane is compared
    with twice its own offset. *)
Theorem buffer_at_aborts_off_zero (conf : CameraConfiguration)
    (bufs : list FrameBuffer) (g : Session) (idx : nat) (buf : FrameBuffer)
    (p : Plane) :
  session_with_buffers conf bufs g ->
  bufs !! idx = Some buf ->
  planes buf !! 0%nat = Some p ->
  0 < p_offset p < UINT_MODULUS ->
  buffer_at idx g = (Aborts, g, []).
Proof. exact (buffer_at_nonzero_base conf bufs g idx buf p). Qed.

Lemma shifted_session_buffers :
  session_with_buffers [plain_stream; plain_stream] [shifted_buffer] shifted_session.
Proof. split; [reflexivity|]. split; [|reflexivity]. eexists. reflexivity. Qed.

Lemma buffer_at_aborts_off_zero_witness :
  session_with_buffers [plain_stream; plain_stream] [shifted_buffer] shifted_session /\
  0 < 4096 < UINT_MODULUS /\
  buffer_at 0 shifted_session = (Aborts, shifted_session, []).
Proof.
  assert (Hr : 0 < 4096 < UINT_MODULUS) by (vm_compute; split; reflexivity).
  split; [exact shifted_session_buffers|]. split; [exact Hr|].
  exact (buffer_at_aborts_off_zero [plain_stream; plain_stream] [shifted_buffer]
           shifted_session 0 shifted_buffer
           {| p_fd := 3; p_offset := 4096; p_length := 100 |}
           shifted_session_buffers eq_refl eq_refl Hr).
Defined.

(** ** What the readers leave alone *)


Lemma queue_all_trace st g reqs :
  acquired (trace (queue_all st reqs g)) = [] /\
  released (trace (queue_all st reqs g)) = [].
Proof.
  induction reqs as [|r reqs IH]; [auto|].
  cbn [queue_all]. run. case_decide as Hq; [run; auto|].
  destruct (queue_all st reqs g) as [[o g1] t1]. exact IH.
Qed.

Lemma start_camera_trace st w h g :
  acquired (trace (start_camera st w h g)) = [] /\
  released (trace (start_camera st w h g)) = [].
Proof.
  unfold start_camera. run. destruct (camera g); run; [|auto].
  cbn zeta. case_decide as Hs; [run; auto|].
  pose proof (queue_all_trace st g (requests g)) as Hq.
  destruct (queue_all st (requests g) g) as [[o g1] t1]. exact Hq.
Qed.


(** ** What [queue_request] keeps *)

Lemma queue_request_final st i g :
  final (queue_request st i g) =
    match requests g !! i with
    | Some req => set_requests (<[i := reuse req]> (requests g)) g
    | None => g
    end.
Proof.
  unfold queue_request, vector_at. run.
  destruct (requests g !! i) as [req|] eqn:Hreq; run; [|reflexivity].
  destruct (camera g); run; reflexivity.
Qed.

(** X6.  However it ends, [queue_request] leaves the pool with the same
    number of requests, the same cookies and the same bound buffers, in the
    same order, and assigns no other file-scope variable. *)
Theorem queue_request_keeps_pool (st : Stack) (i : nat) (g : Session) :
  let g' := final (queue_request st i g) in
  req_cookie <$> requests g' = req_cookie <$> requests g /\
  req_buffer <$> requests g' = req_buffer <$> requests g /\
  List.length (requests g') = List.length (requests g) /\
  cam_manager g' = cam_manager g /\ camera g' = camera g /\
  allocator g' = allocator g /\ config g' = config g /\
  callback_handle g' = callback_handle g.
Proof.
  intros g'. subst g'. rewrite queue_request_final.
  destruct (requests g !! i) as [req|] eqn:Hreq; [|repeat split].
  cbn [requests set_requests cam_manager camera allocator config callback_handle].
  rewrite !list_fmap_insert, length_insert.
  rewrite !list_insert_id by (rewrite list_lookup_fmap, Hreq; reflexivity).
  repeat split.
Qed.

(** X7.  Submitting the same index a second time leaves the file-scope
    variables as the first submission left them, whatever the device
    answered either time. *)
Theorem queue_request_twice (st st' : Stack) (i : nat) (g : Session) :
  final (queue_request st' i (final (queue_request st i g))) =
  final (queue_request st i g).
Proof.
  rewrite (queue_request_final st i g).
  destruct (requests g !! i) as [req|] eqn:Hreq.
  - rewrite queue_request_final. cbn [requests set_requests].
    rewrite list_lookup_insert_eq by (eapply lookup_lt_Some; exact Hreq).
    unfold set_requests. cbn. rewrite list_insert_insert_eq. reflexivity.
  - rewrite queue_request_final, Hreq. reflexivity.
Qed.

(** ** Cookies and pool indices *)

Lemma pool_requests_lookup bufs : forall k i r,
  pool_requests k bufs !! i = Some r ->
  exists b, bufs !! i = Some b /\ r = new_request (k + i) b.
Proof.
  induction bufs as [|b0 bufs IH]; intros k i r H; [discriminate|].
  destruct i as [|i]; simpl in H.
  - injection H as <-. exists b0. rewrite Nat.add_0_r. auto.
  - apply IH in H as (b & Hb & ->). exists b. split; [exact Hb|].
    f_equal. lia.
Qed.

Lemma reachable_pool_indexed g : reachable g -> pool_indexed g.
Proof.
  induction 1 as [| st w h hd g r g' t _ IH Hrun | st w h g r g' t _ IH Hrun
                  | st i g r g' t _ IH Hrun | g g' t _ IH Hrun].
  - intros k q H. discriminate.
  - apply open_camera_inv in Hrun
      as [(-> & _) | (_ & c & conf2 & vis & _ & _ & _ & ->)]; [exact IH|].
    intros k q H. cbn in H.
    apply pool_requests_lookup in H as (b & Hb & ->).
    split; [reflexivity|]. cbn. eauto.
  - pose proof (start_camera_final st w h g) as Hf. rewrite Hrun in Hf.
    cbn in Hf. subst g'. exact IH.
  - apply queue_request_Returns in Hrun as (req & Hreq & ->).
    intros k q H. cbn in H. cbn [allocator set_requests].
    destruct (decide (i = k)) as [<-|Hne].
    + rewrite list_lookup_insert_eq in H by (eapply lookup_lt_Some; exact Hreq).
      injection H as <-. exact (IH i req Hreq).
    + rewrite list_lookup_insert_ne in H by exact Hne. exact (IH k q H).
  - apply close_camera_Returns in Hrun as ->. intros k q H. discriminate.
Qed.

(** X8.  In every state the entry points can reach, the request at pool
    index [i] carries the cookie [i] and is bound to buffer [i] of the
    allocator; so the completion of a pooled request that was not cancelled
    hands the caller exactly the index under which [queue_request] submits
    that request again. *)
Theorem pool_cookie_is_index (g : Session) (i : nat) (r : Request) :
  reachable g ->
  requests g !! i = Some r ->
  req_cookie r = Z.of_nat i /\
  (exists a b, allocator g = Some a /\ fba_buffers a !! i = Some b /\
               req_buffer r = Some b) /\
  (forall done, req_cookie done = req_cookie r ->
     req_status done <> RequestCancelled ->
     requestComplete done g =
       (Returns tt, g, [EvCallback (callback_handle g) (Z.of_nat i)])).
Proof.
  intros Hreach Hr.
  destruct (reachable_pool_indexed g Hreach i r Hr) as [Hcookie Hbuf].
  split; [exact Hcookie|]. split; [exact Hbuf|].
  intros done Hsame Hstatus. unfold requestComplete.
  rewrite decide_False by exact Hstatus. run.
  rewrite Hsame, Hcookie. reflexivity.
Qed.

Lemma pool_cookie_is_index_witness :
  reachable demo_session /\
  requests demo_session !! 1%nat = Some (new_request 1 demo_buffer) /\
  req_cookie (new_request 1 demo_buffer) = 1 /\
  requestComplete
    {| req_cookie := 1; req_status := RequestComplete;
       req_buffer := Some demo_buffer |} demo_session =
    (Returns tt, demo_session, [EvCallback 7 1]).
Proof.
  split; [exact demo_session_reachable|]. split; [reflexivity|].
  destruct (pool_cookie_is_index demo_session 1 (new_request 1 demo_buffer)
              demo_session_reachable eq_refl) as (Hcookie & _ & Hdone).
  split; [exact Hcookie|].
  apply Hdone; [reflexivity | discriminate].
Defined.

(** ** After [close_camera] *)

Lemma close_camera_Returns_open g g' t :
  close_camera g = (Returns tt, g', t) ->
  g' = closed_from g /\
  exists conf sc, config g = Some conf /\ conf !! 0%nat = Some sc.
Proof.
  unfold close_camera. run.
  destruct (camera g); run; [|discriminate].
  destruct (config g) as [conf|]; run; [|discriminate].
  destruct (conf !! 0%nat) as [sc|] eqn:Hsc;
    [rewrite (index_Some _ _ _ Hsc) | rewrite (index_None _ _ Hsc)]; run;
    [|discriminate].
  destruct (allocator g); run; [|discriminate].
  destruct (cam_manager g); run; [|discriminate].
  intros [= <- _]. split; [reflexivity|]. eauto.
Qed.


Lemma demo_session_closes :
  close_camera demo_session =
    (Returns tt, closed_from demo_session,
     [EvCameraStop; EvRequestsClear; EvFree; EvRelease; EvManagerStop]).
Proof. vm_compute. reflexivity. Qed.


(** X10.  [close_camera] does not reset [config]: after it has returned,
    [frame_format] still returns the geometry it returned before. *)
Theorem frame_format_survives_close (g g' : Session) (t : list Event) :
  close_camera g = (Returns tt, g', t) ->
  exists sc,
    frame_format g = (Returns (geometry sc), g, []) /\
    frame_format g' = (Returns (geometry sc), g', []).
Proof.
  intros Hclose.
  apply close_camera_Returns_open in Hclose as (-> & conf & sc & Hconf & Hsc).
  exists sc. split.
  - exact (frame_format_run g conf sc Hconf Hsc).
  - apply (frame_format_run _ conf sc); [exact Hconf | exact Hsc].
Qed.

Lemma frame_format_survives_close_witness :
  close_camera demo_session =
    (Returns tt, closed_from demo_session,
     [EvCameraStop; EvRequestsClear; EvFree; EvRelease; EvManagerStop]) /\
  exists sc,
    frame_format demo_session = (Returns (geometry sc), demo_session, []) /\
    frame_format (closed_from demo_session) =
      (Returns (geometry sc), closed_from demo_session, []).
Proof.
  split; [exact demo_session_closes|].
  exact (frame_format_survives_close demo_session (closed_from demo_session) _
           demo_session_closes).
Defined.

(** ** The crop of [start_camera] *)

(** X11.  The crop [start_camera] hands to the device has the requested
    width and height and a corner whose coordinates are never negative as
    [int]; when the request fits the sensor the crop lies inside the sensor
    and its margins left and right, and above and below, differ by at most
    one pixel. *)
Theorem start_camera_crop_in_sensor (st : Stack) (w h : Z) (g : Session)
    (c : Camera) (sensor : Size) :
  camera g = Some c ->
  PixelArraySize c = Some sensor ->
  exists crop rest,
    trace (start_camera st w h g) = EvCameraStart crop :: rest /\
    r_width crop = w /\ r_height crop = h /\
    0 <= r_x crop < 2 ^ 31 /\ 0 <= r_y crop < 2 ^ 31 /\
    (0 <= w <= sz_width sensor -> sz_width sensor < UINT_MODULUS ->
     r_x crop + w <= sz_width sensor /\
     0 <= (sz_width sensor - (r_x crop + w)) - r_x crop <= 1) /\
    (0 <= h <= sz_height sensor -> sz_height sensor < UINT_MODULUS ->
     r_y crop + h <= sz_height sensor /\
     0 <= (sz_height sensor - (r_y crop + h)) - r_y crop <= 1).
Proof.
  intros Hc Hpas.
  assert (Hhalf : forall z, 0 <= wrap32 z `div` 2 < 2 ^ 31).
  { intros z. pose proof (wrap32_range z) as Hz. unfold UINT_MODULUS in Hz.
    split; [apply Z.div_pos; lia | apply Z.div_lt_upper_bound; lia]. }
  assert (Hcentre : forall s r, 0 <= r <= s -> s < UINT_MODULUS ->
            wrap32 (s - r) `div` 2 + r <= s /\
            0 <= (s - (wrap32 (s - r) `div` 2 + r)) - wrap32 (s - r) `div` 2 <= 1).
  { intros s r Hr Hs. rewrite wrap32_small by lia.
    pose proof (Z.div_mod (s - r) 2 ltac:(lia)) as Hdm.
    pose proof (Z.mod_pos_bound (s - r) 2 ltac:(lia)) as Hmod.
    set (q := (s - r) `div` 2) in *. set (m := (s - r) `mod` 2) in *. lia. }
  assert (Hrun : exists rest,
            trace (start_camera st w h g) =
              EvCameraStart (scaler_crop sensor w h) :: rest).
  { unfold start_camera. run. rewrite Hc. run. cbn zeta. rewrite Hpas.
    cbn [default]. 
    destruct ((if decide (stk_start st (scaler_crop sensor w h) <> 0)
               then ret (stk_start st (scaler_crop sensor w h))
               else queue_all st (requests g)) g) as [[o g1] t1].
    run. cbn. eauto. }
  destruct Hrun as [rest Hrun].
  exists (scaler_crop sensor w h), rest. split; [exact Hrun|].
  rewrite scaler_crop_wrap. cbn [r_x r_y r_width r_height].
  split; [reflexivity|]. split; [reflexivity|].
  split; [apply Hhalf|]. split; [apply Hhalf|].
  split; intros Hr Hs; apply Hcentre; assumption.
Qed.

Lemma start_camera_crop_in_sensor_witness :
  camera demo_session = Some demo_camera /\
  PixelArraySize demo_camera = Some {| sz_width := 3280; sz_height := 2464 |} /\
  exists crop rest,
    trace (start_camera demo_stack 641 480 demo_session) =
      EvCameraStart crop :: rest /\
    r_x crop + 641 <= 3280 /\
    0 <= (3280 - (r_x crop + 641)) - r_x crop <= 1.
Proof.
  split; [reflexivity|]. split; [reflexivity|].
  destruct (start_camera_crop_in_sensor demo_stack 641 480 demo_session
              demo_camera {| sz_width := 3280; sz_height := 2464 |}
              eq_refl eq_refl)
    as (crop & rest & Hrun & _ & _ & _ & _ & Hx & _).
  exists crop, rest. split; [exact Hrun|].
  apply Hx; vm_compute; [split; discriminate | reflexivity].
Defined.

(** ** The successful [open_camera] *)

Lemma build_requests_succeeds st g buffers : forall i reqs,
  (forall j, (j < List.length buffers)%nat ->
     stk_createRequest st (Z.of_nat (i + j)) = true /\
     ~ stk_addBuffer st (Z.of_nat (i + j)) < 0) ->
  build_requests st buffers i reqs g =
    (Returns (inr (reqs ++ pool_requests i buffers)), g,
     pool_log i (List.length buffers)).
Proof.
  induction buffers as [|b rest IH]; intros i reqs Hok.
  - simpl. rewrite app_nil_r. reflexivity.
  - destruct (Hok 0%nat ltac:(simpl; lia)) as [Hcreate Hbind].
    rewrite Nat.add_0_r in Hcreate, Hbind.
    cbn [build_requests pool_requests pool_log List.length]. run.
    rewrite Hcreate. run. rewrite decide_False by exact Hbind.
    rewrite IH.
    + run. rewrite <- app_assoc. reflexivity.
    + intros j Hj. replace (S i + j)%nat with (i + S j)%nat by lia.
      apply Hok. simpl. lia.
Qed.

Lemma open_camera_pool_stage st w h hd g c cams conf2 vis2 :
  stk_cameras st = c :: cams ->
  configured st c w h conf2 -> conf2 !! 0%nat = Some vis2 ->
  ~ stk_allocate st < 0 ->
  open_camera st w h hd g =
    after_all (configured_log ++ [EvAllocate (stk_allocate st)])
      ((build_requests st (stk_buffers st) 0 [] ≫= finish_open st hd c cams conf2) g).
Proof.
  intros Hcams ((Hs & _ & Hacq)%device_acquired_first & conf & vis &
          (conf0 & sc0 & raw0 & sensor & Hgen & H0 & H1 & Hpas & ->) &
          Hvis & Hfmt & -> & Hcfg) Hvis2 Hall.
  open_run. rewrite Hs, Hacq, Hcfg. reflexivity.
Qed.

Lemma open_camera_succeeds st w h hd g c conf2 vis2 :
  configured st c w h conf2 -> conf2 !! 0%nat = Some vis2 ->
  ~ stk_allocate st < 0 ->
  pool_built_until st (List.length (stk_buffers st)) ->
  open_camera st w h hd g = (Returns 0, opened st hd c conf2, success_log st).
Proof.
  intros Hconf Hvis2 Hall Hpool.
  pose proof Hconf as ((_ & [cams Hcams] & _)%device_acquired_first & _).
  rewrite (open_camera_pool_stage st w h hd g c cams conf2 vis2) by assumption.
  rewrite (bind_Returns _ _ _ _ _ _
             (build_requests_succeeds st g (stk_buffers st) 0 [] Hpool)).
  unfold finish_open. run. unfold opened, success_log. rewrite Hcams.
  rewrite <- !app_assoc. reflexivity.
Qed.

Lemma open_camera_Returns_0 st w h hd g g' t :
  open_camera st w h hd g = (Returns 0, g', t) ->
  exists c conf2 vis,
    configured st c w h conf2 /\ conf2 !! 0%nat = Some vis /\
    ~ stk_allocate st < 0 /\
    pool_built_until st (List.length (stk_buffers st)) /\
    g' = opened st hd c conf2 /\ t = success_log st.
Proof.
  intros Hrun.
  destruct (open_camera_inv _ _ _ _ _ _ _ _ Hrun)
    as [(_ & Hne & _) | (_ & c & conf2 & vis & Hconf & Hvis & Hall & _)];
    [congruence|].
  exists c, conf2, vis.
  assert (Hpool : pool_built_until st (List.length (stk_buffers st))).
  { pose proof Hconf as ((_ & [cams Hcams] & _)%device_acquired_first & _).
    rewrite (open_camera_pool_stage st w h hd g c cams conf2 vis) in Hrun
      by assumption.
    destruct (build_requests_cases st g (stk_buffers st) 0 [])
      as (pre & _ & _ & [Hb|Hb]).
    - intros j Hj.
      exact (build_requests_complete st g _ _ _ _ _ _ Hb j Hj).
    - rewrite (bind_Returns _ _ _ _ _ _ Hb) in Hrun. revert Hrun.
      unfold finish_open. run. discriminate. }
  rewrite (open_camera_succeeds st w h hd g c conf2 vis) in Hrun by assumption.
  injection Hrun as <- <-. auto 10.
Qed.

(** X12.  [open_camera] returns 0 exactly when the manager starts, the first
    device is acquired, a configuration with two streams is generated, the
    device has a pixel-array size, the first validation keeps YUV420,
    [configure] returns 0, [allocate] returns no negative number and every
    buffer gets its request created and bound.  It then leaves the session
    of [opened], and its log is [success_log]: no release, and one request
    created and bound per buffer, in buffer order, before the completion
    handler is connected. *)
Theorem open_camera_succeeds_iff (st : Stack) (w h hd : Z) (g : Session) :
  (result (open_camera st w h hd g) = Returns 0 <->
   exists c conf2 vis,
     configured st c w h conf2 /\ conf2 !! 0%nat = Some vis /\
     0 <= stk_allocate st /\
     pool_built_until st (List.length (stk_buffers st))) /\
  (forall g' t,
     open_camera st w h hd g = (Returns 0, g', t) ->
     t = success_log st /\ released t = [] /\
     exists c conf2, configured st c w h conf2 /\ g' = opened st hd c conf2).
Proof.
  split; [split|].
  - intros Hres.
    destruct (open_camera st w h hd g) as [[o g'] t] eqn:Hrun.
    cbn in Hres. subst o.
    apply open_camera_Returns_0 in Hrun
      as (c & conf2 & vis & Hconf & Hvis & Hall & Hpool & _).
    exists c, conf2, vis.
    split; [exact Hconf|]. split; [exact Hvis|]. split; [lia | exact Hpool].
  - intros (c & conf2 & vis & Hconf & Hvis & Hall & Hpool).
    rewrite (open_camera_succeeds st w h hd g c conf2 vis)
      by (assumption || lia).
    reflexivity.
  - intros g' t Hrun.
    apply open_camera_Returns_0 in Hrun
      as (c & conf2 & vis & Hconf & Hvis & Hall & Hpool & -> & ->).
    split; [reflexivity|]. split; [|eauto].
    unfold success_log, released. rewrite omap_app. cbn.
    rewrite omap_app. cbn.
    assert (Hlog : forall n i, omap releases (pool_log i n) = []).
    { induction n as [|n IH]; intros i; [reflexivity|]. cbn. apply IH. }
    rewrite Hlog. reflexivity.
Qed.

Lemma demo_stack_configured : configured demo_stack demo_camera 640 480 demo_configured.
Proof.
  split; [repeat split|].
  exists demo_requested, (fill_stride (set_visible 640 480 generated_stream)).
  split; [apply demo_stack_requested; reflexivity|]. repeat split.
Qed.

Lemma open_camera_succeeds_iff_witness :
  configured demo_stack demo_camera 640 480 demo_configured /\
  pool_built_until demo_stack 2 /\
  result (open_camera demo_stack 640 480 7 closed_session) = Returns 0 /\
  trace (open_camera demo_stack 640 480 7 closed_session) =
    [EvManagerStart 0; EvAcquire 0; EvGenerateConfiguration; EvValidate;
     EvValidate; EvConfigure 0; EvAllocate 2; EvCreateRequest 0;
     EvAddBuffer 0; EvCreateRequest 1; EvAddBuffer 1; EvConnect].
Proof.
  assert (Hpool : pool_built_until demo_stack 2).
  { intros j _. split; [reflexivity|]. vm_compute. discriminate. }
  split; [exact demo_stack_configured|]. split; [exact Hpool|].
  destruct (open_camera_succeeds_iff demo_stack 640 480 7 closed_session)
    as [[_ Hif] Hlog].
  split.
  - apply Hif.
    exists demo_camera, demo_configured,
      (fill_stride (fill_stride (set_visible 640 480 generated_stream))).
    split; [exact demo_stack_configured|]. split; [reflexivity|].
    split; [vm_compute; discriminate | exact Hpool].
  - exact (proj1 (Hlog demo_session
                    (trace (open_camera demo_stack 640 480 7 closed_session))
                    eq_refl)).
Defined.

(** ** A whole session *)

Lemma close_camera_open g :
  session_open g ->
  close_camera g =
    (Returns tt, closed_from g,
     [EvCameraStop; EvRequestsClear; EvFree; EvRelease; EvManagerStop]).
Proof.
  intros (cm & c & a & conf & sc & Hcm & Hc & Ha & Hconf & Hsc).
  unfold close_camera. run. rewrite Hc. run. rewrite Hconf. run.
  rewrite (index_Some _ _ _ Hsc). run. rewrite Ha. run. rewrite Hcm. run.
  reflexivity.
Qed.

Lemma pool_log_acquired n : forall i, acquired (pool_log i n) = [].
Proof. induction n as [|n IH]; intros i; [reflexivity|]. cbn. apply IH. Qed.

Lemma pool_log_released n : forall i, released (pool_log i n) = [].
Proof. induction n as [|n IH]; intros i; [reflexivity|]. cbn. apply IH. Qed.

Lemma success_log_resources st :
  ~ stk_allocate st < 0 ->
  acquired (success_log st) = [Manager; Device; Buffers] /\
  released (success_log st) = [].
Proof.
  intros Hall. unfold success_log, acquired, released.
  rewrite !omap_app. cbn [omap list_omap acquires releases configured_log app].
  rewrite !omap_app.
  fold (acquired (pool_log 0 (List.length (stk_buffers st)))).
  fold (released (pool_log 0 (List.length (stk_buffers st)))).
  rewrite pool_log_acquired, pool_log_released.
  rewrite (decide_False (P := stk_allocate st < 0)) by exact Hall.
  split; reflexivity.
Qed.

(** X13.  After an [open_camera] that returned 0, a [start_camera], however
    it ends, and then a [close_camera]: the close returns and leaves
    manager, camera, allocator and requests released, and over the three
    logs together the manager, the device and the buffers were each taken
    once and given back once, in the reverse order. *)
Theorem open_start_close_balanced (st st' : Stack) (w h hd w' h' : Z)
    (g g1 : Session) (t1 : list Event) :
  open_camera st w h hd g = (Returns 0, g1, t1) ->
  final (start_camera st' w' h' g1) = g1 /\
  exists t3,
    close_camera g1 = (Returns tt, closed_from g1, t3) /\
    session_released (closed_from g1) /\
    acquired (t1 ++ trace (start_camera st' w' h' g1) ++ t3) =
      [Manager; Device; Buffers] /\
    released (t1 ++ trace (start_camera st' w' h' g1) ++ t3) =
      [Buffers; Device; Manager].
Proof.
  intros Hrun.
  apply open_camera_Returns_0 in Hrun
    as (c & conf2 & vis & Hconf & Hvis & Hall & Hpool & -> & ->).
  split; [apply start_camera_final|].
  assert (Hopen : session_open (opened st hd c conf2)).
  { unfold session_open, opened. cbn. eauto 10. }
  eexists. split; [exact (close_camera_open _ Hopen)|].
  split; [repeat split|].
  destruct (success_log_resources st Hall) as [Ha Hr].
  destruct (start_camera_trace st' w' h' (opened st hd c conf2)) as [Hsa Hsr].
  unfold acquired, released in *. rewrite !omap_app, Ha, Hr, Hsa, Hsr.
  split; reflexivity.
Qed.

Lemma open_start_close_balanced_witness :
  open_camera demo_stack 640 480 7 closed_session =
    (Returns 0, demo_session,
     trace (open_camera demo_stack 640 480 7 closed_session)) /\
  exists t3,
    close_camera demo_session = (Returns tt, closed_from demo_session, t3) /\
    released (trace (open_camera demo_stack 640 480 7 closed_session) ++
              trace (start_camera refusing_first 640 480 demo_session) ++ t3) =
      [Buffers; Device; Manager].
Proof.
  assert (Hrun : open_camera demo_stack 640 480 7 closed_session =
                 (Returns 0, demo_session,
                  trace (open_camera demo_stack 640 480 7 closed_session)))
    by reflexivity.
  split; [exact Hrun|].
  destruct (open_start_close_balanced demo_stack refusing_first 640 480 7
              640 480 closed_session demo_session _ Hrun)
    as (_ & t3 & Hclose & _ & _ & Hrel).
  exists t3. split; [exact Hclose | exact Hrel].
Defined.

(** ** A request larger than the sensor *)

(** X15.  [start_camera] does not reject a width larger than the sensor's:
    the unsigned subtraction wraps, and the device is started with a crop
    whose corner is at (2^32 + sensorWidth - width) / 2, so that the crop
    reaches past the sensor. *)
Theorem start_camera_oversize_wraps (st : Stack) (w h : Z) (g : Session)
    (c : Camera) (sensor : Size) :
  camera g = Some c ->
  PixelArraySize c = Some sensor ->
  0 <= sz_width sensor < w -> w < UINT_MODULUS ->
  exists crop rest,
    trace (start_camera st w h g) = EvCameraStart crop :: rest /\
    r_x crop = (UINT_MODULUS + sz_width sensor - w) `div` 2 /\
    sz_width sensor < r_x crop + w.
Proof.
  intros Hc Hpas Hw Hlt.
  assert (Hrun : exists rest,
            trace (start_camera st w h g) =
              EvCameraStart (scaler_crop sensor w h) :: rest).
  { unfold start_camera. run. rewrite Hc. run. cbn zeta. rewrite Hpas.
    cbn [default].
    destruct ((if decide (stk_start st (scaler_crop sensor w h) <> 0)
               then ret (stk_start st (scaler_crop sensor w h))
               else queue_all st (requests g)) g) as [[o g1] t1].
    run. cbn. eauto. }
  destruct Hrun as [rest Hrun].
  exists (scaler_crop sensor w h), rest. split; [exact Hrun|].
  rewrite scaler_crop_wrap. cbn [r_x].
  assert (Hwrap : wrap32 (sz_width sensor - w) =
                  UINT_MODULUS + sz_width sensor - w).
  { unfold wrap32, UINT_MODULUS in *.
    replace (sz_width sensor - w)
      with (2 ^ 32 + sz_width sensor - w + (-1) * 2 ^ 32) by lia.
    rewrite Z.mod_add by lia. apply Z.mod_small. lia. }
  rewrite Hwrap. split; [reflexivity|].
  unfold UINT_MODULUS in *.
  pose proof (Z.div_mod (2 ^ 32 + sz_width sensor - w) 2 ltac:(lia)) as Hdm.
  pose proof (Z.mod_pos_bound (2 ^ 32 + sz_width sensor - w) 2 ltac:(lia)) as Hm.
  set (q := (2 ^ 32 + sz_width sensor - w) `div` 2) in *.
  set (m := (2 ^ 32 + sz_width sensor - w) `mod` 2) in *. lia.
Qed.

Lemma start_camera_oversize_wraps_witness :
  camera demo_session = Some demo_camera /\
  0 <= 3280 < 4000 /\ 4000 < UINT_MODULUS /\
  exists crop rest,
    trace (start_camera demo_stack 4000 480 demo_session) =
      EvCameraStart crop :: rest /\
    r_x crop = 2147483288 /\ 3280 < r_x crop + 4000.
Proof.
  split; [reflexivity|].
  assert (Hw : 0 <= 3280 < 4000) by lia.
  assert (Hlt : 4000 < UINT_MODULUS) by reflexivity.
  split; [exact Hw|]. split; [exact Hlt|].
  exact (start_camera_oversize_wraps demo_stack 4000 480 demo_session
           demo_camera {| sz_width := 3280; sz_height := 2464 |}
           eq_refl eq_refl Hw Hlt).
Defined.
